(** * URL shortener API server: registry, code allocation and click analytics

    A shallow embedding of the Express server of the repository
    (the file that declares [urlDatabase], [clickAnalytics],
    [generateShortCode] and the route handlers), and the properties its
    specification states about it.

    Conventions of the embedding.
    - The two module-level [Map]s are the two components of [State]; every
      handler is a function from a state and its inputs to a new state and
      a response.
    - Instants are milliseconds since the epoch, as [Z].  A handler runs to
      completion without yielding, and the instant [now] it is given stands
      for each of its readings of the clock ([new Date()], [Date.now()]).
    - [Math.random] and [uuidv4] are inputs: the scaled and floored random
      indices arrive as a stream [rnd : nat -> nat], the fresh identifier as
      a string.
    - The platform URL parser is a parameter of the development
      ([URL_protocol]).
    - The recursion of [generateShortCode] is not structural; the model
      counts the calls it may still make ([fuel]) and answers [None] when
      the recursion has not returned within them.
    - The logging calls do not touch the two maps and are left out.
    - A request body holds a string or nothing as [originalUrl] and as
      [customShortcode], and an integer or nothing as [validityPeriod].
    - The module [Runtime] follows [POST /api/shorten] and
      [generateShortCode] with every reading of the clock as an input of
      its own, with dates that can be invalid and with a call stack of a
      given depth; a theorem below relates the two. *)

From Stdlib Require Import ZArith Lia Ascii String.
From stdpp Require Import gmap strings list fin_maps.
From stdpp Require Import sorting.

Local Open Scope string_scope.
Local Open Scope Z_scope.

(** ** JavaScript helpers *)

(** [x || d] on a value that is [undefined] or a string: the empty string
    is falsy. *)
Definition js_or (x : option string) (d : string) : string :=
  match x with
  | Some s => if String.eqb s "" then d else s
  | None => d
  end.

(** Truthiness of a value that is [undefined]/[null] or a string. *)
Definition truthy (x : option string) : bool :=
  match x with
  | Some s => negb (String.eqb s "")
  | None => false
  end.

(** [s.charAt(i)]: the empty string when [i] is out of range. *)
Definition charAt (s : string) (i : nat) : string :=
  match String.get i s with
  | Some c => String c EmptyString
  | None => ""
  end.

(** ** Data *)

Record UrlData := mkUrlData {
  id : string;
  originalUrl : string;
  shortCode : string;
  createdAt : Z;
  expiryDate : Z;
  createdBy : string;
  isActive : bool;
  validityPeriod : Z
}.

Record Click := mkClick {
  timestamp : Z;
  ip : string;
  userAgent : string;
  location : option string
}.

Record Analytics := mkAnalytics {
  totalClicks : nat;
  clicks : list Click
}.

Record State := mkState {
  urlDatabase : gmap string UrlData;
  clickAnalytics : gmap string Analytics
}.

Definition init : State := mkState ∅ ∅.

(** [urlDatabase.has(code)] *)
Definition has (db : gmap string UrlData) (code : string) : bool :=
  bool_decide (is_Some (db !! code)).

(** ** Code allocation *)

(** The character class of [/^[a-zA-Z0-9_-]+$/]. *)
Definition isCodeChar (c : ascii) : bool :=
  let n := nat_of_ascii c in
  ((97 <=? n) && (n <=? 122) || (65 <=? n) && (n <=? 90) ||
   (48 <=? n) && (n <=? 57) || (n =? 95) || (n =? 45))%nat.

(** [/^[a-zA-Z0-9_-]+$/.test(s)]: one or more characters, all of the class.
    A string that passes has only characters of one byte, so that its
    [String.length] is its [length] in JavaScript. *)
Definition matchesCodeRegex (s : string) : bool :=
  negb (String.eqb s "") && forallb isCodeChar (list_ascii_of_string s).

Definition chars : string :=
  "abcdefghijklmnopqrstuvwxyzABCDEFGHIJKLMNOPQRSTUVWXYZ0123456789".

(** The messages of the three [Error]s thrown by [generateShortCode], under
    the names the specification gives to these failures. *)
Definition InvalidShortcodeFormat : string :=
  "Custom shortcode must contain only alphanumeric characters, hyphens, and underscores".
Definition InvalidShortcodeLength : string :=
  "Custom shortcode must be between 3 and 20 characters".
Definition ShortcodeCollision : string :=
  "Custom shortcode already exists".

Inductive Outcome (A : Type) : Type :=
| Return (a : A)
| Throw (message : string).
Arguments Return {A} a.
Arguments Throw {A} message.

(** The [for] loop of [generateShortCode]: [n] more iterations, the next
    random index being [rnd k]. *)
Fixpoint drawLoop (n : nat) (rnd : nat -> nat) (k : nat) (result : string) : string :=
  match n with
  | O => result
  | S n' => drawLoop n' rnd (S k) (result ++ charAt chars (rnd k))
  end.

Definition drawCode (rnd : nat -> nat) : string := drawLoop 6 rnd 0 "".

(** The random stream after one drawn code. *)
Definition afterDraw (rnd : nat -> nat) : nat -> nat := fun k => rnd (6 + k)%nat.

(** [if (customCode)]: the custom code when the argument is truthy. *)
Definition provided (customCode : option string) : option string :=
  if truthy customCode then customCode else None.

Fixpoint generateShortCode (fuel : nat) (db : gmap string UrlData)
    (rnd : nat -> nat) (customCode : option string) : option (Outcome string) :=
  match fuel with
  | O => None
  | S fuel' =>
    match provided customCode with
    | Some code =>
      if negb (matchesCodeRegex code) then Some (Throw InvalidShortcodeFormat)
      else if ((String.length code <? 3) || (20 <? String.length code))%nat
           then Some (Throw InvalidShortcodeLength)
      else if has db code then Some (Throw ShortcodeCollision)
      else Some (Return code)
    | None =>
      let result := drawCode rnd in
      if has db result then generateShortCode fuel' db (afterDraw rnd) None
      else Some (Return result)
    end
  end.

(** The code drawn by the [k]-th call of the recursion (counted from 0). *)
Fixpoint attempt (rnd : nat -> nat) (k : nat) : string :=
  match k with
  | O => drawCode rnd
  | S k' => attempt (afterDraw rnd) k'
  end.

(** The character class the specification gives for short codes, spelled
    out: upper case, lower case, digits, hyphen, underscore. *)
Definition codeClass : list ascii :=
  list_ascii_of_string "ABCDEFGHIJKLMNOPQRSTUVWXYZabcdefghijklmnopqrstuvwxyz0123456789-_".

Definition inCodeClass (s : string) : Prop :=
  Forall (λ c, c ∈ codeClass) (list_ascii_of_string s).

(** The characters a generated code is made of. *)
Definition alphanumeric (s : string) : Prop :=
  Forall (λ c, c ∈ list_ascii_of_string chars) (list_ascii_of_string s).

(** Random indices that make the loop draw a given code: the position of
    each of its characters in [chars]. *)
Fixpoint indexIn (c : ascii) (l : list ascii) : nat :=
  match l with
  | [] => O
  | x :: l' => if Ascii.eqb c x then O else S (indexIn c l')
  end.

Definition drawsFor (code : string) : nat -> nat :=
  fun i =>
    match String.get i code with
    | Some c => indexIn c (list_ascii_of_string chars)
    | None => O
    end.

(** ** Requests and responses *)

Record Connection := mkConnection {
  req_ip : option string;
  connection_remoteAddress : option string;
  socket_remoteAddress : option string
}.

Definition getClientIP (req : Connection) : string :=
  js_or (req_ip req)
    (js_or (connection_remoteAddress req)
       (js_or (socket_remoteAddress req) "unknown")).

Definition mockLocations : list string :=
  ["New York, US"; "London, UK"; "Tokyo, JP"; "Mumbai, IN"; "Sydney, AU"].

(** [mockLocations[i]], [i] being the scaled and floored random number. *)
Definition getCoarseLocation (i : nat) : option string := mockLocations !! i.

(** The body of [POST /api/shorten] with the connection it arrives on. *)
Record ShortenRequest := mkShortenRequest {
  body_originalUrl : option string;
  body_customShortcode : option string;
  body_validityPeriod : option Z;
  shorten_conn : Connection
}.

(** The [data] of a successful [POST /api/shorten] (without [shortUrl],
    which only prefixes [shortCode] with the server's address). *)
Record Shortened := mkShortened {
  res_originalUrl : string;
  res_shortCode : string;
  res_expiryDate : Z;
  res_validityPeriod : Z
}.

(** One element of the [data] of [GET /api/urls] and the [data] of
    [GET /api/analytics/:shortCode]. *)
Record UrlStats (H : Type) := mkUrlStats {
  stats_url : UrlData;
  stats_totalClicks : nat;
  stats_isExpired : bool;
  stats_clickHistory : list H
}.
Arguments mkUrlStats {H}.
Arguments stats_url {H}.
Arguments stats_totalClicks {H}.
Arguments stats_isExpired {H}.
Arguments stats_clickHistory {H}.

Inductive Response :=
| Created (data : Shortened)
| UrlList (data : list (UrlStats (Z * option string)))
| AnalyticsData (data : UrlStats Click)
| Redirected (target : string)
| Health (totalUrls activeUrls : nat)
| Failure (status : nat) (error : string) (expiredAt : option Z).

(** The failures of the specification, as the responses the handlers send. *)
Definition MissingUrl : Response := Failure 400 "Original URL is required" None.
Definition InvalidUrl : Response := Failure 400 "Invalid URL format" None.
Definition QuotaExceeded : Response :=
  Failure 429 "Maximum 5 concurrent shortened URLs allowed" None.
Definition AllocationFailed (message : string) : Response := Failure 400 message None.
Definition ShortCodeNotFound : Response := Failure 404 "Short URL not found" None.
Definition ShortCodeExpired (expiredAt : Z) : Response :=
  Failure 410 "Short URL has expired" (Some expiredAt).
Definition InternalServerError : Response := Failure 500 "Internal server error" None.

Definition isFailure (r : Response) : bool :=
  match r with Failure _ _ _ => true | _ => false end.

(** [new Date() > record.expiryDate] *)
Definition isExpired (record : UrlData) (now : Z) : bool := expiryDate record <? now.

(** The records the quota filter of [POST /api/shorten] keeps. *)
Definition activeFor (clientIP : string) (now : Z) (url : UrlData) : Prop :=
  createdBy url = clientIP ∧ now ≤ expiryDate url.

#[global] Instance activeFor_dec clientIP now url : Decision (activeFor clientIP now url) :=
  and_dec (decide (createdBy url = clientIP)) (decide (now ≤ expiryDate url)).

(** [Array.from(urlDatabase.values())]; the order of enumeration is not
    modelled. *)
Definition values {A : Type} (m : gmap string A) : list A := (map_to_list m).*2.

Definition countActiveForCreator (db : gmap string UrlData)
    (clientIP : string) (now : Z) : nat :=
  length (filter (activeFor clientIP now) (values db)).

(** [validityPeriod || 30] on a value that is absent or an integer. *)
Definition validityMinutesOf (validityPeriod : option Z) : Z :=
  match validityPeriod with
  | Some v => if v =? 0 then 30 else v
  | None => 30
  end.

Definition emptyAnalytics : Analytics := mkAnalytics 0 [].

Inductive Request :=
| PostShorten (req : ShortenRequest) (uuid : string) (rnd : nat -> nat) (fuel : nat)
| GetUrls
| GetAnalytics (code : string)
| GetRedirect (code : string) (conn : Connection)
    (userAgentHeader : option string) (locationIndex : nat)
| GetHealth.

Section Server.

(** [new URL(s).protocol], [None] when the constructor throws. *)
Variable URL_protocol : string -> option string.

Definition isValidUrl (s : string) : bool :=
  match URL_protocol s with
  | Some protocol => String.eqb protocol "http:" || String.eqb protocol "https:"
  | None => false
  end.

(** [app.post('/api/shorten', ...)] *)
Definition shorten (st : State) (now : Z) (req : ShortenRequest)
    (uuid : string) (rnd : nat -> nat) (fuel : nat) : option (State * Response) :=
  let clientIP := getClientIP (shorten_conn req) in
  if negb (truthy (body_originalUrl req)) then Some (st, MissingUrl)
  else
    let originalUrl := default "" (body_originalUrl req) in
    if negb (isValidUrl originalUrl) then Some (st, InvalidUrl)
    else if (5 <=? countActiveForCreator (urlDatabase st) clientIP now)%nat
         then Some (st, QuotaExceeded)
    else
      match generateShortCode fuel (urlDatabase st) rnd (body_customShortcode req) with
      | None => None
      | Some (Throw message) => Some (st, AllocationFailed message)
      | Some (Return shortCode) =>
        let validityMinutes := validityMinutesOf (body_validityPeriod req) in
        let expiryDate := now + validityMinutes * 60 * 1000 in
        let urlData :=
          {| id := uuid; originalUrl := originalUrl; shortCode := shortCode;
             createdAt := now; expiryDate := expiryDate; createdBy := clientIP;
             isActive := true; validityPeriod := validityMinutes |} in
        Some (mkState (<[shortCode := urlData]> (urlDatabase st))
                      (<[shortCode := emptyAnalytics]> (clickAnalytics st)),
              Created (mkShortened originalUrl shortCode expiryDate validityMinutes))
      end.

(** The [urlData] a successful [POST /api/shorten] stores under [code]. *)
Definition storedRecord (now : Z) (req : ShortenRequest) (uuid code : string) : UrlData :=
  {| id := uuid; originalUrl := default "" (body_originalUrl req); shortCode := code;
     createdAt := now;
     expiryDate := now + validityMinutesOf (body_validityPeriod req) * 60 * 1000;
     createdBy := getClientIP (shorten_conn req);
     isActive := true;
     validityPeriod := validityMinutesOf (body_validityPeriod req) |}.

(** [clickAnalytics.get(code) || { totalClicks: 0, clicks: [] }] *)
Definition analyticsOrEmpty (st : State) (code : string) : Analytics :=
  default emptyAnalytics (clickAnalytics st !! code).

(** [app.get('/api/urls', ...)] *)
Definition listUrls (st : State) (now : Z) : State * Response :=
  (st, UrlList
         ((λ url,
             let analytics := analyticsOrEmpty st (shortCode url) in
             mkUrlStats url (totalClicks analytics) (isExpired url now)
               ((λ click, (timestamp click, location click)) <$> clicks analytics))
          <$> values (urlDatabase st))).

(** [app.get('/api/analytics/:shortCode', ...)] *)
Definition getAnalytics (st : State) (now : Z) (code : string) : State * Response :=
  match urlDatabase st !! code with
  | None => (st, ShortCodeNotFound)
  | Some urlData =>
    let analytics := analyticsOrEmpty st code in
    (st, AnalyticsData (mkUrlStats urlData (totalClicks analytics)
                          (isExpired urlData now) (clicks analytics)))
  end.

(** [analytics.totalClicks++; analytics.clicks.push(click)] *)
Definition recordClick (analytics : Analytics) (click : Click) : Analytics :=
  mkAnalytics (S (totalClicks analytics)) (clicks analytics ++ [click]).

(** [app.get('/:shortCode', ...)].  When the analytics entry is missing the
    increment throws a [TypeError], which the handler's [catch] answers
    with status 500. *)
Definition redirect (st : State) (now : Z) (code : string) (conn : Connection)
    (userAgentHeader : option string) (locationIndex : nat) : State * Response :=
  let clientIP := getClientIP conn in
  let userAgent := js_or userAgentHeader "unknown" in
  match urlDatabase st !! code with
  | None => (st, ShortCodeNotFound)
  | Some urlData =>
    if isExpired urlData now then (st, ShortCodeExpired (expiryDate urlData))
    else
      match clickAnalytics st !! code with
      | None => (st, InternalServerError)
      | Some analytics =>
        let location := getCoarseLocation locationIndex in
        let click := mkClick now clientIP userAgent location in
        (mkState (urlDatabase st)
                 (<[code := recordClick analytics click]> (clickAnalytics st)),
         Redirected (originalUrl urlData))
      end
  end.

(** [app.get('/api/health', ...)] *)
Definition health (st : State) (now : Z) : State * Response :=
  (st, Health (size (urlDatabase st))
              (length (filter (λ url, now ≤ expiryDate url) (values (urlDatabase st))))).

(** ** The server as a transition system *)

Definition handle (st : State) (now : Z) (r : Request) : option (State * Response) :=
  match r with
  | PostShorten req uuid rnd fuel => shorten st now req uuid rnd fuel
  | GetUrls => Some (listUrls st now)
  | GetAnalytics code => Some (getAnalytics st now code)
  | GetRedirect code conn ua i => Some (redirect st now code conn ua i)
  | GetHealth => Some (health st now)
  end.

(** [evolves st0 st]: the server gets from [st0] to [st] by handling
    requests. *)
Inductive evolves (st0 : State) : State -> Prop :=
| evolves_refl : evolves st0 st0
| evolves_step st now r st' resp :
    evolves st0 st -> handle st now r = Some (st', resp) -> evolves st0 st'.

(** States the server can be in: [init], then any requests. *)
Definition reachable : State -> Prop := evolves init.

(** [reachableAt T st]: [st] is reached by requests handled at instants
    that never decrease, the last of them at [T] ([init] at any instant). *)
Inductive reachableAt : Z -> State -> Prop :=
| reachableAt_init T : reachableAt T init
| reachableAt_step T st now r st' resp :
    reachableAt T st -> T ≤ now -> handle st now r = Some (st', resp) ->
    reachableAt now st'.

(** What a request can do to the two maps: nothing, add a record with its
    empty analytics entry under a code the registry does not hold, or
    record one click in the entry of a code the registry holds. *)
Inductive Effect (st st' : State) : Prop :=
| effect_none : st' = st -> Effect st st'
| effect_create code record :
    urlDatabase st !! code = None ->
    st' = mkState (<[code := record]> (urlDatabase st))
                  (<[code := emptyAnalytics]> (clickAnalytics st)) ->
    Effect st st'
| effect_click code analytics click :
    is_Some (urlDatabase st !! code) ->
    clickAnalytics st !! code = Some analytics ->
    st' = mkState (urlDatabase st)
                  (<[code := recordClick analytics click]> (clickAnalytics st)) ->
    Effect st st'.

(** The analytics invariant: every counter is the length of its click
    sequence. *)
Definition countsClicks (st : State) : Prop :=
  forall code analytics,
    clickAnalytics st !! code = Some analytics ->
    totalClicks analytics = length (clicks analytics).


(** Handling a list of timed requests in order, from state [st] at instant
    [T]; [None] when an instant precedes the one before it or a handler has
    not returned. *)
Fixpoint run (st : State) (T : Z) (tr : list (Z * Request)) : option (Z * State) :=
  match tr with
  | [] => Some (T, st)
  | (now, r) :: tr' =>
    if decide (T ≤ now) then
      match handle st now r with
      | Some (st', _) => run st' now tr'
      | None => None
      end
    else None
  end.

End Server.

(** ** The statistics page

    The functions of the [URLStatistics] component that compute what the
    page shows from the [data] of [GET /api/urls]. *)

(** [urls.reduce((total, url) => total + url.totalClicks, 0)] *)
Definition getTotalClicks {H : Type} (urls : list (UrlStats H)) : nat :=
  foldl (fun total url => (total + stats_totalClicks url)%nat) O urls.

(** [urls.filter(url => !url.isExpired).length] *)
Definition getActiveUrls {H : Type} (urls : list (UrlStats H)) : nat :=
  length (filter (fun url => stats_isExpired url = false) urls).

(** [clickHistory.slice(-3)]: the last three elements, or all of them when
    there are fewer. *)
Definition lastThree {A : Type} (clickHistory : list A) : list A :=
  drop (length clickHistory - 3) clickHistory.

(** The number of the label [+N more], which is shown when
    [clickHistory.length > 3]. *)
Definition moreClicks {A : Type} (clickHistory : list A) : option nat :=
  if (3 <? length clickHistory)%nat then Some (length clickHistory - 3)%nat else None.

(** ** The form of the shortener page

    The state [formData] of the [URLShortener] component and the checks
    [handleSubmit] makes before it posts the form. *)


Section Form.

(** [new URL(s).protocol], [None] when the constructor throws. *)
Variable URL_protocol : string -> option string.

(** [s.trim()] *)
Variable trim : string -> string.



End Form.


(** ** The create handler on the clock and the call stack of the runtime

    The handlers above give each request one instant, dates without
    bound and a call stack without bound.  The definitions of this module
    follow [POST /api/shorten] and [generateShortCode] where these matter:
    every reading of the clock is an input of its own, a [Date] holds a
    time value of at most 8.64e15 milliseconds in absolute value or is an
    Invalid Date, and a call of [generateShortCode] that finds no room on
    the call stack throws the [RangeError] of the runtime.  Numbers are
    integers: on integers the arithmetic of the handler is exact wherever
    its result is a valid date. *)

Module Runtime.

(** A [Date]: its time value, or [None] for an Invalid Date. *)
Definition Date : Type := option Z.

Definition maxTime : Z := 8640000000000000.

(** [new Date(t)] for an integral number [t]. *)
Definition newDate (t : Z) : Date :=
  if Z.abs t <=? maxTime then Some t else None.

(** [a <= b] on two [Date]s: false when one of them is invalid. *)
Definition dateLe (a b : Date) : bool :=
  match a, b with
  | Some x, Some y => x <=? y
  | _, _ => false
  end.

Record UrlData := mkUrlData {
  id : string;
  originalUrl : string;
  shortCode : string;
  createdAt : Date;
  expiryDate : Date;
  createdBy : string;
  isActive : bool;
  validityPeriod : Z
}.

Record State := mkState {
  urlDatabase : gmap string UrlData;
  clickAnalytics : gmap string Analytics
}.

Definition init : State := mkState ∅ ∅.

(** [urlDatabase.has(code)] *)
Definition has (db : gmap string UrlData) (code : string) : bool :=
  bool_decide (is_Some (db !! code)).

(** The message of the [RangeError] thrown when the call stack is
    exhausted. *)
Definition StackOverflow : string := "Maximum call stack size exceeded".

(** [generateShortCode] on a call stack that has room for [depth] calls
    below the first one. *)
Fixpoint generateShortCode (depth : nat) (db : gmap string UrlData)
    (rnd : nat -> nat) (customCode : option string) : Outcome string :=
  match provided customCode with
  | Some code =>
    if negb (matchesCodeRegex code) then Throw InvalidShortcodeFormat
    else if ((String.length code <? 3) || (20 <? String.length code))%nat
         then Throw InvalidShortcodeLength
    else if has db code then Throw ShortcodeCollision
    else Return code
  | None =>
    let result := drawCode rnd in
    if has db result then
      match depth with
      | O => Throw StackOverflow
      | S depth' => generateShortCode depth' db (afterDraw rnd) None
      end
    else Return result
  end.

(** The [data] of a successful [POST /api/shorten] (without [shortUrl]). *)
Record Shortened := mkShortened {
  res_originalUrl : string;
  res_shortCode : string;
  res_expiryDate : Date;
  res_validityPeriod : Z
}.

Inductive Response :=
| Created (data : Shortened)
| Failure (status : nat) (error : string).

(** The quota filter of [POST /api/shorten]; [filterClock code] is the
    reading of the clock when the filter visits the record stored under
    [code]. *)
Definition countActiveForCreator (db : gmap string UrlData) (clientIP : string)
    (filterClock : string -> Z) : nat :=
  length (filter (fun entry : string * UrlData =>
                    createdBy entry.2 = clientIP /\
                    dateLe (newDate (filterClock entry.1)) (expiryDate entry.2) = true)
                 (map_to_list db)).

Section Handler.

(** [new URL(s).protocol], [None] when the constructor throws. *)
Variable URL_protocol : string -> option string.

(** [app.post('/api/shorten', ...)]; [dateNow] is what [Date.now()]
    returns when the expiry date is computed, [createdNow] the reading of
    the clock by the [new Date()] of [createdAt]. *)
Definition shorten (st : State) (filterClock : string -> Z) (dateNow createdNow : Z)
    (req : ShortenRequest) (uuid : string) (rnd : nat -> nat) (depth : nat)
  : State * Response :=
  let clientIP := getClientIP (shorten_conn req) in
  if negb (truthy (body_originalUrl req)) then
    (st, Failure 400 "Original URL is required")
  else
    let originalUrl := default "" (body_originalUrl req) in
    if negb (isValidUrl URL_protocol originalUrl) then (st, Failure 400 "Invalid URL format")
    else if (5 <=? countActiveForCreator (urlDatabase st) clientIP filterClock)%nat
         then (st, Failure 429 "Maximum 5 concurrent shortened URLs allowed")
    else
      match generateShortCode depth (urlDatabase st) rnd (body_customShortcode req) with
      | Throw message => (st, Failure 400 message)
      | Return shortCode =>
        let validityMinutes := validityMinutesOf (body_validityPeriod req) in
        let expiryDate := newDate (dateNow + validityMinutes * 60 * 1000) in
        let urlData :=
          {| id := uuid; originalUrl := originalUrl; shortCode := shortCode;
             createdAt := newDate createdNow; expiryDate := expiryDate;
             createdBy := clientIP; isActive := true;
             validityPeriod := validityMinutes |} in
        (mkState (<[shortCode := urlData]> (urlDatabase st))
                 (<[shortCode := emptyAnalytics]> (clickAnalytics st)),
         Created (mkShortened originalUrl shortCode expiryDate validityMinutes))
      end.

End Handler.

End Runtime.

(** A record of the handlers above as the runtime holds it when its dates
    are valid, and a state likewise. *)
Definition toRuntime (record : UrlData) : Runtime.UrlData :=
  Runtime.mkUrlData (id record) (originalUrl record) (shortCode record)
    (Some (createdAt record)) (Some (expiryDate record))
    (createdBy record) (isActive record) (validityPeriod record).


(** A time value a [Date] can hold. *)
Definition validTime (t : Z) : Prop := - Runtime.maxTime ≤ t ≤ Runtime.maxTime.

(** ** Sample inputs *)

(** A stand-in for the platform's URL parser on the sample inputs. *)
Definition sampleProtocol (s : string) : option string :=
  if String.prefix "https://" s then Some "https:"
  else if String.prefix "http://" s then Some "http:"
  else None.

Definition alice : Connection := mkConnection (Some "10.0.0.1") None None.

Definition sampleRequest (customCode : option string) (validity : option Z)
  : ShortenRequest :=
  mkShortenRequest (Some "https://example.com") customCode validity alice.

Definition zeros : nat -> nat := fun _ => O.

(** Draws that give ["aaaaaa"] a hundred times and ["bbbbbb"] from then on. *)
Definition collidingDraws : nat -> nat := fun i => if (i <? 600)%nat then O else 1%nat.

Definition sampleRecord : UrlData :=
  mkUrlData "id-0" "https://example.com" "aaaaaa" 0 1800000 "10.0.0.1" true 30.

Definition busyRegistry : gmap string UrlData := {[ "aaaaaa" := sampleRecord ]}.

Definition post (customCode : string) (uuid : string) : Request :=
  PostShorten (sampleRequest (Some customCode) None) uuid zeros 1.

(** Five links made by one client in five consecutive milliseconds. *)
Definition fiveLinks : list (Z * Request) :=
  [(0, post "one" "id-1"); (1, post "two" "id-2"); (2, post "three" "id-3");
   (3, post "four" "id-4"); (4, post "five" "id-5")].

(** One link, made at instant 0 and valid for five minutes, then two visits. *)
Definition linkAndVisits : list (Z * Request) :=
  [(0, PostShorten (sampleRequest (Some "docs") (Some 5)) "id-1" zeros 1);
   (1000, GetRedirect "docs" alice (Some "curl/8") 1);
   (2000, GetRedirect "docs" alice None 4)].

Definition stateAfter (tr : list (Z * Request)) : State :=
  match run sampleProtocol init 0 tr with
  | Some (_, st) => st
  | None => init
  end.

(** Draws that give ["aaaaaa"] once and ["bbbbbb"] from then on. *)
Definition collideOnce : nat -> nat := fun i => if (i <? 6)%nat then O else 1%nat.

(** The scenario of the specification: a link with no custom code, valid
    for five minutes. *)
Definition scenario : list (Z * Request) :=
  [(0, PostShorten (sampleRequest None (Some 5)) "id-1" zeros 1)].




(** A link made at instant 0 with a validity of minus one minute. *)
Definition bornExpired : list (Z * Request) :=
  [(0, PostShorten (sampleRequest (Some "gone") (Some (-1))) "id-1" zeros 1)].

(** The first request of [linkAndVisits], and what follows it. *)
Definition linkOnly : list (Z * Request) := take 1 linkAndVisits.

Definition twoVisits : list (Z * Request) := drop 1 linkAndVisits.

(** The [data] of [GET /api/urls] in a state at an instant. *)
Definition listingOf (st : State) (now : Z) : list (UrlStats (Z * option string)) :=
  match (listUrls st now).2 with
  | UrlList data => data
  | _ => []
  end.


(** The registry of [busyRegistry] as the runtime holds it, and a clock
    that reads 0 at every visit of the quota filter. *)
Definition runtimeBusy : gmap string Runtime.UrlData := toRuntime <$> busyRegistry.

Definition atZero : string -> Z := fun _ => 0.

Section Properties.

Variable URL_protocol : string -> option string.

Local Abbreviation isValidUrl := (isValidUrl URL_protocol).
Local Abbreviation shorten := (shorten URL_protocol).
Local Abbreviation handle := (handle URL_protocol).
Local Abbreviation evolves := (evolves URL_protocol).
Local Abbreviation reachable := (reachable URL_protocol).
Local Abbreviation reachableAt := (reachableAt URL_protocol).
Local Abbreviation run := (run URL_protocol).

(** ** Strings and the character classes *)

Lemma append_cons (x : ascii) (a b : string) : String x a ++ b = String x (a ++ b).
Proof. reflexivity. Qed.

Lemma append_empty_l (a : string) : "" ++ a = a.
Proof. reflexivity. Qed.

Lemma append_assoc (a b c : string) : (a ++ b) ++ c = a ++ (b ++ c).
Proof.
  induction a as [|x a IH]; [reflexivity |]. by rewrite !append_cons, IH.
Qed.

Lemma append_empty_r (a : string) : a ++ "" = a.
Proof.
  induction a as [|x a IH]; [reflexivity |]. by rewrite append_cons, IH.
Qed.

Lemma length_append (a b : string) :
  String.length (a ++ b) = (String.length a + String.length b)%nat.
Proof.
  induction a as [|x a IH]; [reflexivity |]. rewrite append_cons. simpl. by rewrite IH.
Qed.

Lemma length_of_list (l : list ascii) :
  String.length (string_of_list_ascii l) = length l.
Proof. induction l as [|x l IH]; simpl; [reflexivity | f_equal; exact IH]. Qed.

Lemma get_elem_of (s : string) (i : nat) (c : ascii) :
  String.get i s = Some c -> c ∈ list_ascii_of_string s.
Proof.
  revert i. induction s as [|x s IH]; intros i; simpl; [discriminate |].
  destruct i as [|i].
  - intros [= ->]. apply list_elem_of_here.
  - intros Hget. apply list_elem_of_further. by eapply IH.
Qed.

Lemma get_in_range (s : string) (i : nat) :
  (i < String.length s)%nat -> is_Some (String.get i s).
Proof.
  revert i. induction s as [|x s IH]; intros i; simpl; [lia |].
  destruct i as [|i]; [eauto | intros Hi; apply IH; lia].
Qed.

Lemma eqb_empty (s : string) : String.eqb s "" = true <-> s = "".
Proof. apply String.eqb_eq. Qed.

(** The ranges of the regular expression are the 64 characters of
    [codeClass]. *)
Lemma isCodeChar_codeClass (c : ascii) : isCodeChar c = true <-> c ∈ codeClass.
Proof.
  assert (Hb : isCodeChar c = existsb (Ascii.eqb c) codeClass).
  { destruct c as [[] [] [] [] [] [] [] []]; vm_compute; reflexivity. }
  rewrite Hb, existsb_exists. split.
  - intros (x & Hx & Heq). apply Ascii.eqb_eq in Heq as ->.
    by apply list_elem_of_In.
  - intros Hc. exists c. split; [by apply list_elem_of_In | apply Ascii.eqb_refl].
Qed.

Lemma matchesCodeRegex_inCodeClass (s : string) :
  s <> "" -> (matchesCodeRegex s = true <-> inCodeClass s).
Proof.
  intros Hne. unfold matchesCodeRegex, inCodeClass.
  destruct (String.eqb s "") eqn:E; [by apply eqb_empty in E |]. simpl.
  rewrite forallb_forall, Forall_forall.
  split; intros H c Hc; apply isCodeChar_codeClass, H; by apply list_elem_of_In.
Qed.

(** Every alphanumeric character is in the class. *)
Lemma alphanumeric_inCodeClass (s : string) : alphanumeric s -> inCodeClass s.
Proof.
  unfold alphanumeric, inCodeClass. intros Hs.
  eapply Forall_impl; [exact Hs |]. intros c Hc. simpl in Hc.
  apply isCodeChar_codeClass.
  assert (Hall : forallb isCodeChar (list_ascii_of_string chars) = true)
    by (vm_compute; reflexivity).
  rewrite forallb_forall in Hall. apply Hall. by apply list_elem_of_In.
Qed.

(** ** The drawing loop *)

Lemma charAt_chars (i : nat) :
  charAt chars i = "" \/
  exists c, c ∈ list_ascii_of_string chars /\ charAt chars i = String c "".
Proof.
  unfold charAt. destruct (String.get i chars) as [c|] eqn:E; [right | by left].
  exists c. split; [by eapply get_elem_of | reflexivity].
Qed.

Lemma charAt_chars_in_range (i : nat) :
  (i < 62)%nat ->
  exists c, c ∈ list_ascii_of_string chars /\ charAt chars i = String c "".
Proof.
  intros Hi. unfold charAt.
  destruct (get_in_range chars i) as [c Hc]; [exact Hi |].
  rewrite Hc. exists c. split; [by eapply get_elem_of | reflexivity].
Qed.

(** The loop appends at most [n] alphanumeric characters, and exactly [n]
    when the indices it reads are below [chars.length]. *)
Lemma drawLoop_shape (n : nat) (rnd : nat -> nat) (k : nat) (result : string) :
  exists l : list ascii,
    drawLoop n rnd k result = result ++ string_of_list_ascii l /\
    Forall (λ c, c ∈ list_ascii_of_string chars) l /\
    ((forall i, (k <= i < k + n)%nat -> (rnd i < 62)%nat) -> length l = n).
Proof.
  revert k result. induction n as [|n IH]; intros k result; simpl.
  - exists []. simpl. rewrite append_empty_r. auto.
  - destruct (IH (S k) (result ++ charAt chars (rnd k))) as (l & Heq & Hall & Hlen).
    destruct (charAt_chars (rnd k)) as [He | (c & Hc & He)].
    + exists l. rewrite Heq, He, append_empty_r. split; [reflexivity |].
      split; [exact Hall |]. intros Hr.
      destruct (charAt_chars_in_range (rnd k)) as (c & _ & Hc); [apply Hr; lia |].
      congruence.
    + exists (c :: l). rewrite Heq, He, append_assoc. simpl.
      split; [reflexivity |]. split; [by constructor |].
      intros Hr. f_equal. apply Hlen. intros i Hi. apply Hr. lia.
Qed.

Lemma drawCode_alphanumeric (rnd : nat -> nat) : alphanumeric (drawCode rnd).
Proof.
  destruct (drawLoop_shape 6 rnd 0 "") as (l & Heq & Hall & _).
  unfold alphanumeric, drawCode.
  by rewrite Heq, append_empty_l, list_ascii_of_string_of_list_ascii.
Qed.

Lemma drawCode_length (rnd : nat -> nat) :
  (forall i, (i < 6)%nat -> (rnd i < 62)%nat) -> String.length (drawCode rnd) = 6%nat.
Proof.
  intros Hr. destruct (drawLoop_shape 6 rnd 0 "") as (l & Heq & _ & Hlen).
  unfold drawCode. rewrite Heq, append_empty_l, length_of_list.
  apply Hlen. intros i Hi. apply Hr. lia.
Qed.

Lemma get_indexIn (s : string) (c : ascii) :
  c ∈ list_ascii_of_string s ->
  String.get (indexIn c (list_ascii_of_string s)) s = Some c /\
  (indexIn c (list_ascii_of_string s) < String.length s)%nat.
Proof.
  induction s as [|x s IH]; simpl; [by intros ?%elem_of_nil |].
  destruct (Ascii.eqb c x) eqn:E.
  - apply Ascii.eqb_eq in E as ->. intros _. split; [reflexivity | lia].
  - intros [->|Hc]%elem_of_cons; [by rewrite Ascii.eqb_refl in E |].
    destruct (IH Hc) as [Hget Hlt]. split; [exact Hget | lia].
Qed.

Lemma charAt_indexIn (c : ascii) :
  c ∈ list_ascii_of_string chars ->
  charAt chars (indexIn c (list_ascii_of_string chars)) = String c "".
Proof.
  intros Hc. unfold charAt. by destruct (get_indexIn chars c Hc) as [-> _].
Qed.

(** Every alphanumeric code of six characters is drawn by some random
    indices. *)
Lemma drawCode_drawsFor (code : string) :
  String.length code = 6%nat -> alphanumeric code ->
  (forall i, (drawsFor code i < 62)%nat) /\ drawCode (drawsFor code) = code.
Proof.
  intros Hlen Hall. split.
  - intros i. unfold drawsFor. destruct (String.get i code) as [c|] eqn:E; [| lia].
    assert (Hc : c ∈ list_ascii_of_string chars).
    { unfold alphanumeric in Hall. rewrite Forall_forall in Hall.
      apply Hall. by eapply get_elem_of. }
    by destruct (get_indexIn chars c Hc) as [_ Hlt].
  - destruct code as [|c0 [|c1 [|c2 [|c3 [|c4 [|c5 [|c6 code]]]]]]];
      try discriminate Hlen.
    unfold alphanumeric in Hall. simpl in Hall.
    repeat match goal with
           | H : Forall _ (_ :: _) |- _ => apply Forall_cons in H as [? H]
           end.
    unfold drawCode. cbn [drawLoop]. unfold drawsFor. cbn [String.get].
    by rewrite !charAt_indexIn.
Qed.

(** ** The allocation *)

Lemma has_true (db : gmap string UrlData) (code : string) :
  has db code = true <-> is_Some (db !! code).
Proof. unfold has. apply bool_decide_eq_true. Qed.

Lemma has_false (db : gmap string UrlData) (code : string) :
  has db code = false <-> db !! code = None.
Proof. unfold has. by rewrite bool_decide_eq_false, eq_None_not_Some. Qed.

Lemma provided_Some (code : string) : code <> "" -> provided (Some code) = Some code.
Proof.
  intros Hne. unfold provided, truthy.
  destruct (String.eqb code "") eqn:E; [by apply eqb_empty in E | reflexivity].
Qed.

Lemma provided_None (customCode : option string) :
  provided customCode = None <-> customCode = None \/ customCode = Some "".
Proof.
  unfold provided, truthy. destruct customCode as [code|]; [| naive_solver].
  destruct (String.eqb code "") eqn:E; simpl.
  - apply eqb_empty in E as ->. naive_solver.
  - split; [discriminate |]. intros [|[= ->]]; discriminate.
Qed.

(** One call on the random path: return the drawn code, or call again
    with the rest of the random stream. *)
Lemma generateShortCode_draw fuel db rnd customCode :
  provided customCode = None ->
  generateShortCode (S fuel) db rnd customCode =
    if has db (drawCode rnd) then generateShortCode fuel db (afterDraw rnd) None
    else Some (Return (drawCode rnd)).
Proof. intros H. simpl. by rewrite H. Qed.

Lemma generateShortCode_returns k : forall fuel db rnd customCode,
  provided customCode = None ->
  (forall j, (j < k)%nat -> is_Some (db !! attempt rnd j)) ->
  db !! attempt rnd k = None ->
  (k < fuel)%nat ->
  generateShortCode fuel db rnd customCode = Some (Return (attempt rnd k)).
Proof.
  induction k as [|k IH]; intros fuel db rnd customCode Hp Hbusy Hfree Hfuel;
    (destruct fuel as [|fuel]; [lia |]); rewrite generateShortCode_draw by done.
  - simpl in Hfree. by apply has_false in Hfree as ->.
  - assert (H0 : has db (drawCode rnd) = true) by (apply has_true, (Hbusy O); lia).
    rewrite H0. apply IH; [done | | done | lia].
    intros j Hj. apply (Hbusy (S j)). lia.
Qed.

Lemma generateShortCode_pending k : forall fuel db rnd customCode,
  provided customCode = None ->
  (forall j, (j < k)%nat -> is_Some (db !! attempt rnd j)) ->
  (fuel <= k)%nat ->
  generateShortCode fuel db rnd customCode = None.
Proof.
  induction k as [|k IH]; intros fuel db rnd customCode Hp Hbusy Hfuel;
    (destruct fuel as [|fuel]; [reflexivity |]); [lia |].
  rewrite generateShortCode_draw by done.
  assert (H0 : has db (drawCode rnd) = true) by (apply has_true, (Hbusy O); lia).
  rewrite H0. apply IH; [done | | lia].
  intros j Hj. apply (Hbusy (S j)). lia.
Qed.

Lemma generateShortCode_random_inv fuel : forall db rnd customCode o,
  provided customCode = None ->
  generateShortCode fuel db rnd customCode = Some o ->
  exists k, (k < fuel)%nat /\ o = Return (attempt rnd k) /\
            db !! attempt rnd k = None /\
            forall j, (j < k)%nat -> is_Some (db !! attempt rnd j).
Proof.
  induction fuel as [|fuel IH]; intros db rnd customCode o Hp; [discriminate |].
  rewrite generateShortCode_draw by done.
  destruct (has db (drawCode rnd)) eqn:E.
  - intros (k & Hk & -> & Hfree & Hbusy)%IH; [| done].
    exists (S k). split; [lia |]. split; [reflexivity |]. split; [exact Hfree |].
    intros [|j] Hj; [by apply has_true | apply Hbusy; lia].
  - intros [= <-]. exists O. split; [lia |]. split; [reflexivity |].
    split; [by apply has_false |]. intros j Hj. lia.
Qed.

Lemma generateShortCode_inv fuel db rnd customCode code :
  generateShortCode fuel db rnd customCode = Some (Return code) ->
  db !! code = None.
Proof.
  destruct (provided customCode) as [c|] eqn:Hp.
  - destruct fuel as [|fuel]; [discriminate |]. simpl. rewrite Hp.
    repeat case_match; try discriminate. intros [= <-]. by apply has_false.
  - intros (k & _ & [= ->] & Hfree & _)%generateShortCode_random_inv; done.
Qed.

Lemma attempt_alphanumeric (rnd : nat -> nat) (k : nat) : alphanumeric (attempt rnd k).
Proof. revert rnd. induction k as [|k IH]; intros rnd; simpl; [apply drawCode_alphanumeric | apply IH]. Qed.

Lemma attempt_length (rnd : nat -> nat) (k : nat) :
  (forall i, (rnd i < 62)%nat) -> String.length (attempt rnd k) = 6%nat.
Proof.
  revert rnd. induction k as [|k IH]; intros rnd Hr; simpl.
  - apply drawCode_length. auto.
  - apply IH. intros i. apply Hr.
Qed.

(** ** What the handlers do to the state *)

Lemma shorten_inv st now req uuid rnd fuel st' resp :
  shorten st now req uuid rnd fuel = Some (st', resp) ->
  (st' = st /\ isFailure resp = true) \/
  (exists code,
     truthy (body_originalUrl req) = true /\
     isValidUrl (default "" (body_originalUrl req)) = true /\
     (countActiveForCreator (urlDatabase st) (getClientIP (shorten_conn req)) now < 5)%nat /\
     generateShortCode fuel (urlDatabase st) rnd (body_customShortcode req)
       = Some (Return code) /\
     urlDatabase st !! code = None /\
     st' = mkState (<[code := storedRecord now req uuid code]> (urlDatabase st))
                   (<[code := emptyAnalytics]> (clickAnalytics st)) /\
     resp = Created (mkShortened (default "" (body_originalUrl req)) code
                       (expiryDate (storedRecord now req uuid code))
                       (validityPeriod (storedRecord now req uuid code)))).
Proof.
  unfold shorten.
  destruct (truthy (body_originalUrl req)) eqn:Hurl; cbn [negb];
    [| intros [= <- <-]; by left].
  destruct (isValidUrl _) eqn:Hvalid; cbn [negb]; [| intros [= <- <-]; by left].
  destruct (Nat.leb 5 _) eqn:Hquota; [intros [= <- <-]; by left |].
  apply Nat.leb_gt in Hquota.
  destruct (generateShortCode _ _ _ _) as [[code|message]|] eqn:Hgen;
    [| intros [= <- <-]; by left | discriminate].
  intros [= <- <-]. right. exists code.
  pose proof (generateShortCode_inv _ _ _ _ _ Hgen) as Hfresh.
  by repeat split.
Qed.

Lemma redirect_inv st now code conn ua i st' resp :
  redirect st now code conn ua i = (st', resp) ->
  (st' = st /\ isFailure resp = true) \/
  (exists urlData analytics,
     urlDatabase st !! code = Some urlData /\
     isExpired urlData now = false /\
     clickAnalytics st !! code = Some analytics /\
     st' = mkState (urlDatabase st)
             (<[code := recordClick analytics
                          (mkClick now (getClientIP conn) (js_or ua "unknown")
                             (getCoarseLocation i))]> (clickAnalytics st)) /\
     resp = Redirected (originalUrl urlData)).
Proof.
  unfold redirect.
  destruct (urlDatabase st !! code) as [urlData|] eqn:Hdb; [| intros [= <- <-]; by left].
  destruct (isExpired urlData now) eqn:Hexp; [intros [= <- <-]; by left |].
  destruct (clickAnalytics st !! code) as [analytics|] eqn:Han;
    [| intros [= <- <-]; by left].
  intros [= <- <-]. right. by exists urlData, analytics.
Qed.

Lemma handle_effect st now r st' resp :
  handle st now r = Some (st', resp) -> Effect st st'.
Proof.
  destruct r as [req uuid rnd fuel| |code|code conn ua i|]; simpl.
  - intros [[-> _]|(code & _ & _ & _ & _ & Hfresh & -> & _)]%shorten_inv.
    + by apply effect_none.
    + by eapply effect_create.
  - intros [= <- _]. by apply effect_none.
  - unfold getAnalytics. destruct (urlDatabase st !! code);
      intros [= <- _]; by apply effect_none.
  - intros [= H]. apply redirect_inv in H
      as [[-> _]|(urlData & analytics & Hdb & _ & Han & -> & _)].
    + by apply effect_none.
    + eapply effect_click; eauto.
  - intros [= <- _]. by apply effect_none.
Qed.

(** ** Invariants of the two maps *)

Lemma Effect_dom st st' :
  Effect st st' ->
  dom (urlDatabase st) = dom (clickAnalytics st) ->
  dom (urlDatabase st') = dom (clickAnalytics st').
Proof.
  intros [->|code record _ ->|code analytics click _ Han ->] Hdom; simpl.
  - exact Hdom.
  - rewrite !dom_insert_L. by rewrite Hdom.
  - rewrite dom_insert_L, subseteq_union_1_L; [exact Hdom |].
    apply singleton_subseteq_l, elem_of_dom. eauto.
Qed.

Lemma reachable_dom st :
  reachable st -> dom (urlDatabase st) = dom (clickAnalytics st).
Proof.
  induction 1 as [|st now r st' resp _ IH Hstep]; [reflexivity |].
  eapply Effect_dom; [by eapply handle_effect | exact IH].
Qed.

Lemma reachable_analytics st code :
  reachable st -> is_Some (urlDatabase st !! code) -> is_Some (clickAnalytics st !! code).
Proof.
  intros Hreach Hdb. apply elem_of_dom. rewrite <- (reachable_dom st Hreach).
  by apply elem_of_dom.
Qed.

Lemma Effect_countsClicks st st' : Effect st st' -> countsClicks st -> countsClicks st'.
Proof.
  intros [->|code record _ ->|code analytics click _ Han ->] Hinv; [exact Hinv | |];
    intros c a; simpl; rewrite lookup_insert; case_decide.
  - by intros [= <-].
  - apply Hinv.
  - intros [= <-]. simpl. rewrite length_app. simpl.
    rewrite (Hinv code analytics Han). lia.
  - apply Hinv.
Qed.

Lemma reachable_countsClicks st : reachable st -> countsClicks st.
Proof.
  induction 1 as [|st now r st' resp _ IH Hstep].
  - intros code a. simpl. by rewrite lookup_empty.
  - eapply Effect_countsClicks; [by eapply handle_effect | exact IH].
Qed.

(** A stored record is never replaced. *)
Lemma Effect_record st st' code record :
  Effect st st' -> urlDatabase st !! code = Some record ->
  urlDatabase st' !! code = Some record.
Proof.
  intros [->|c r Hfresh ->|c a click _ _ ->] Hdb; simpl; [done | | done].
  rewrite lookup_insert_ne; [done | congruence].
Qed.

Lemma evolves_record st st' code record :
  evolves st st' -> urlDatabase st !! code = Some record ->
  urlDatabase st' !! code = Some record.
Proof.
  induction 1 as [|st1 now r st2 resp _ IH Hstep]; [done |].
  intros Hdb. eapply Effect_record; [by eapply handle_effect | by apply IH].
Qed.

Lemma reachableAt_reachable T st : reachableAt T st -> reachable st.
Proof.
  induction 1 as [|T st now r st' resp _ IH _ Hstep]; [apply evolves_refl |].
  by eapply evolves_step.
Qed.

Lemma run_reachableAt tr : forall st T T' st',
  reachableAt T st -> run st T tr = Some (T', st') -> reachableAt T' st'.
Proof.
  induction tr as [|[now r] tr IH]; intros st T T' st' Hreach; simpl.
  - by intros [= <- <-].
  - case_decide; [| discriminate].
    destruct (handle st now r) as [[st1 resp]|] eqn:Hstep; [| discriminate].
    apply IH. by eapply reachableAt_step.
Qed.

(** ** Counting the active records of a creator *)


Lemma values_insert {A : Type} (m : gmap string A) (k : string) (v : A) :
  m !! k = None -> values (<[k := v]> m) ≡ₚ v :: values m.
Proof. intros Hk. unfold values. by rewrite map_to_list_insert. Qed.

Lemma elem_of_values {A : Type} (m : gmap string A) (v : A) :
  v ∈ values m -> exists k, m !! k = Some v.
Proof.
  unfold values. intros ([k v'] & -> & Hkv)%list_elem_of_fmap.
  exists k. by apply elem_of_map_to_list.
Qed.


Lemma countActive_insert db code record clientIP t :
  db !! code = None ->
  countActiveForCreator (<[code := record]> db) clientIP t =
    ((if decide (activeFor clientIP t record) then 1 else 0) +
     countActiveForCreator db clientIP t)%nat.
Proof.
  intros Hfresh. unfold countActiveForCreator.
  rewrite (values_insert db code record Hfresh), filter_cons.
  by case_decide.
Qed.







(** ** Code allocation with a custom code *)

(** C1 (amended): for every call to [generateShortCode] with a non-empty
    custom code: it throws the format error unless every character of the
    code is in the class A-Z, a-z, 0-9, hyphen, underscore; otherwise it
    throws the length error unless the length is between 3 and 20;
    otherwise it throws the collision error if the registry holds the code;
    otherwise it returns the custom code unchanged. *)
Theorem custom_code_validation (fuel : nat) (db : gmap string UrlData)
    (rnd : nat -> nat) (code : string) :
  code <> "" ->
  (~ inCodeClass code ->
   generateShortCode (S fuel) db rnd (Some code) = Some (Throw InvalidShortcodeFormat)) /\
  (inCodeClass code -> ~ (3 <= String.length code <= 20)%nat ->
   generateShortCode (S fuel) db rnd (Some code) = Some (Throw InvalidShortcodeLength)) /\
  (inCodeClass code -> (3 <= String.length code <= 20)%nat -> is_Some (db !! code) ->
   generateShortCode (S fuel) db rnd (Some code) = Some (Throw ShortcodeCollision)) /\
  (inCodeClass code -> (3 <= String.length code <= 20)%nat -> db !! code = None ->
   generateShortCode (S fuel) db rnd (Some code) = Some (Return code)).
Proof.
  intros Hne. simpl. rewrite (provided_Some code Hne).
  pose proof (matchesCodeRegex_inCodeClass code Hne) as Hclass.
  destruct (matchesCodeRegex code) eqn:Hre; simpl.
  - assert (Hin : inCodeClass code) by (by apply Hclass).
    split; [done |].
    destruct (String.length code <? 3)%nat eqn:Hlo;
      [apply Nat.ltb_lt in Hlo | apply Nat.ltb_ge in Hlo]; simpl.
    { repeat split; intros; try lia; reflexivity. }
    destruct (20 <? String.length code)%nat eqn:Hhi;
      [apply Nat.ltb_lt in Hhi | apply Nat.ltb_ge in Hhi].
    { repeat split; intros; try lia; reflexivity. }
    split; [intros _ Hlen; lia |].
    split; [intros _ _ Hhas | intros _ _ Hfree].
    + by apply has_true in Hhas as ->.
    + by apply has_false in Hfree as ->.
  - assert (Hout : ~ inCodeClass code).
    { intros Hin. apply Hclass in Hin. congruence. }
    repeat split; intros; done.
Qed.

(** ** Code allocation without a custom code *)

(** C6 (amended): when no custom code is supplied (the argument is absent
    or empty), [generateShortCode] draws six characters from the 62
    letters and digits of [chars] (never a hyphen or an underscore) and,
    while the drawn code is in the registry, calls itself to draw a fresh
    one; the first drawn code that the registry does not hold is returned:
    it has length six, is alphanumeric, hence within the class of custom
    codes, and is absent from the registry.  Every alphanumeric code of
    length six is the code drawn from some random indices. *)
Theorem random_code_allocation (db : gmap string UrlData) (rnd : nat -> nat)
    (customCode : option string) (k fuel : nat) :
  customCode = None \/ customCode = Some "" ->
  (forall i, (rnd i < 62)%nat) ->
  (forall j, (j < k)%nat -> is_Some (db !! attempt rnd j)) ->
  db !! attempt rnd k = None ->
  (k < fuel)%nat ->
  generateShortCode fuel db rnd customCode = Some (Return (attempt rnd k)) /\
  String.length (attempt rnd k) = 6%nat /\
  alphanumeric (attempt rnd k) /\
  inCodeClass (attempt rnd k) /\
  (forall fuel' o, generateShortCode fuel' db rnd customCode = Some o ->
     exists code, o = Return code /\ String.length code = 6%nat /\
                  alphanumeric code /\ inCodeClass code /\ db !! code = None) /\
  (forall code, String.length code = 6%nat -> alphanumeric code ->
     exists rnd', (forall i, (rnd' i < 62)%nat) /\ drawCode rnd' = code).
Proof.
  intros Hnone%provided_None Hrnd Hbusy Hfree Hfuel.
  split; [by apply generateShortCode_returns |].
  split; [by apply attempt_length |].
  split; [apply attempt_alphanumeric |].
  split; [apply alphanumeric_inCodeClass, attempt_alphanumeric |].
  split.
  - intros fuel' o (k' & _ & -> & Hfree' & _)%generateShortCode_random_inv; [| done].
    exists (attempt rnd k'). split; [reflexivity |].
    split; [by apply attempt_length |].
    split; [apply attempt_alphanumeric |].
    split; [apply alphanumeric_inCodeClass, attempt_alphanumeric | exact Hfree'].
  - intros code Hlen Hall. exists (drawsFor code). by apply drawCode_drawsFor.
Qed.

(** ** The quota of a creator *)


(** ** Resolving a short code *)


(** C10: whenever [GET /:shortCode] answers with a failure (unknown code,
    expired code), the state it leaves is the state it found: neither the
    registry nor the analytics map has changed, so no click was recorded
    and no counter incremented. *)
Theorem resolve_failure_changes_nothing st now code conn ua i st' resp :
  redirect st now code conn ua i = (st', resp) ->
  isFailure resp = true ->
  st' = st /\
  urlDatabase st' = urlDatabase st /\
  clickAnalytics st' = clickAnalytics st /\
  (forall c, (totalClicks <$> clickAnalytics st' !! c) = (totalClicks <$> clickAnalytics st !! c)) /\
  (urlDatabase st !! code = None -> resp = ShortCodeNotFound) /\
  (forall record, urlDatabase st !! code = Some record -> isExpired record now = true ->
     resp = ShortCodeExpired (expiryDate record)).
Proof.
  intros Hred Hfail. pose proof Hred as Hinv.
  apply redirect_inv in Hinv as [[-> _]|(? & ? & _ & _ & _ & _ & ->)]; [| discriminate].
  repeat split; try done.
  - intros Hdb. unfold redirect in Hred. rewrite Hdb in Hred. congruence.
  - intros record Hdb Hexp. unfold redirect in Hred. rewrite Hdb, Hexp in Hred. congruence.
Qed.

(** ** Analytics *)

(** C5: in every reachable state the [totalClicks] of every analytics entry
    is the length of its [clicks]; a successful [POST /api/shorten] creates
    the entry of the new code with counter 0 and no clicks, and a
    successful [GET /:shortCode] appends exactly one click to the entry of
    its code and adds exactly one to the counter. *)
Theorem totalClicks_is_length st :
  reachable st ->
  (forall code analytics, clickAnalytics st !! code = Some analytics ->
     totalClicks analytics = length (clicks analytics)) /\
  (forall now req uuid rnd fuel st' data,
     shorten st now req uuid rnd fuel = Some (st', Created data) ->
     clickAnalytics st' !! res_shortCode data = Some (mkAnalytics 0 [])) /\
  (forall now code conn ua i st' target,
     redirect st now code conn ua i = (st', Redirected target) ->
     exists before after click,
       clickAnalytics st !! code = Some before /\
       clickAnalytics st' !! code = Some after /\
       totalClicks after = S (totalClicks before) /\
       clicks after = (clicks before ++ [click])%list /\
       totalClicks after = length (clicks after)).
Proof.
  intros Hreach. pose proof (reachable_countsClicks st Hreach) as Hinv.
  split; [exact Hinv |]. split.
  - intros now req uuid rnd fuel st' data
      [[_ Hfail]|(code & _ & _ & _ & _ & _ & -> & Hresp)]%shorten_inv; [discriminate |].
    injection Hresp as ->. simpl. by rewrite lookup_insert_eq.
  - intros now code conn ua i st' target
      [[_ Hfail]|(urlData & before & _ & _ & Han & -> & _)]%redirect_inv; [discriminate |].
    eexists before, _, _. simpl. rewrite lookup_insert_eq.
    repeat split; [exact Han |]. simpl. rewrite length_app. simpl.
    rewrite (Hinv code before Han). lia.
Qed.

(** C8: in every reachable state the registry and the analytics map hold
    entries for the same codes; a request that answers [Created] adds one
    code, which neither map held, to both maps, with an empty analytics
    entry; every other request leaves both sets of codes as they are; and
    the handlers that look a code up answer [ShortCodeNotFound] exactly
    when the two entries do not both exist. *)
Theorem registry_and_analytics_agree st :
  reachable st ->
  dom (urlDatabase st) = dom (clickAnalytics st) /\
  (forall now r st' resp,
     handle st now r = Some (st', resp) ->
     match resp with
     | Created data =>
       urlDatabase st !! res_shortCode data = None /\
       clickAnalytics st !! res_shortCode data = None /\
       dom (urlDatabase st') = {[ res_shortCode data ]} ∪ dom (urlDatabase st) /\
       dom (clickAnalytics st') = {[ res_shortCode data ]} ∪ dom (clickAnalytics st) /\
       clickAnalytics st' !! res_shortCode data = Some emptyAnalytics
     | _ =>
       dom (urlDatabase st') = dom (urlDatabase st) /\
       dom (clickAnalytics st') = dom (clickAnalytics st)
     end) /\
  (forall now code conn ua i,
     ((getAnalytics st now code).2 = ShortCodeNotFound <->
      ~ (is_Some (urlDatabase st !! code) /\ is_Some (clickAnalytics st !! code))) /\
     ((redirect st now code conn ua i).2 = ShortCodeNotFound <->
      ~ (is_Some (urlDatabase st !! code) /\ is_Some (clickAnalytics st !! code)))).
Proof.
  intros Hreach. pose proof (reachable_dom st Hreach) as Hdom.
  split; [exact Hdom |]. split.
  - intros now r st' resp Hstep.
    assert (Hnone : forall c, urlDatabase st !! c = None -> clickAnalytics st !! c = None).
    { intros c Hc. apply not_elem_of_dom. rewrite <- Hdom. by apply not_elem_of_dom. }
    destruct r as [req uuid rnd fuel| |code|code conn ua i|]; simpl in Hstep.
    + apply shorten_inv in Hstep
        as [[-> Hfail]|(code & _ & _ & _ & _ & Hfresh & -> & ->)].
      * destruct resp; try discriminate. done.
      * simpl. rewrite !dom_insert_L, lookup_insert_eq. auto.
    + by injection Hstep as <- <-.
    + unfold getAnalytics in Hstep.
      destruct (urlDatabase st !! code); by injection Hstep as <- <-.
    + injection Hstep as Hstep. apply redirect_inv in Hstep
        as [[-> Hfail]|(urlData & analytics & _ & _ & Han & -> & ->)].
      * destruct resp; try discriminate. done.
      * simpl. split; [reflexivity |].
        rewrite dom_insert_L, subseteq_union_1_L; [reflexivity |].
        apply singleton_subseteq_l, elem_of_dom. eauto.
    + by injection Hstep as <- <-.
  - intros now code conn ua i.
    assert (Hboth : is_Some (urlDatabase st !! code) /\ is_Some (clickAnalytics st !! code)
                    <-> is_Some (urlDatabase st !! code)).
    { split; [by intros [? _] |]. intros Hdb. split; [done |].
      by apply reachable_analytics. }
    rewrite Hboth. unfold getAnalytics, redirect.
    destruct (urlDatabase st !! code) as [urlData|] eqn:Hdb.
    + destruct (reachable_analytics st code Hreach) as [analytics Han]; [eauto |].
      rewrite Han. split; (split; [| intros []; eauto]); simpl.
      * discriminate.
      * destruct (isExpired urlData now); discriminate.
    + simpl. split; (split; [intros _ [? [=]] | reflexivity]).
Qed.

(** ** Expiry *)

(** C9: if a record is expired at an instant [t] it is expired at every
    later instant [t']; and as no request replaces a stored record, a
    record that the registry holds and that is expired at [t] is still the
    record of its code after any further requests, so the code is answered
    with [ShortCodeExpired] at [t']: it never becomes active again. *)
Theorem expiry_is_monotonic (record : UrlData) (t t' : Z) :
  isExpired record t = true ->
  t < t' ->
  isExpired record t' = true /\
  (forall st st' code,
     urlDatabase st !! code = Some record ->
     evolves st st' ->
     urlDatabase st' !! code = Some record /\
     forall conn ua i,
       redirect st' t' code conn ua i = (st', ShortCodeExpired (expiryDate record))).
Proof.
  unfold isExpired. intros Hexp%Z.ltb_lt Ht.
  assert (Hexp' : (expiryDate record <? t') = true) by (apply Z.ltb_lt; lia).
  split; [exact Hexp' |].
  intros st st' code Hdb Hev.
  pose proof (evolves_record st st' code record Hev Hdb) as Hdb'.
  split; [exact Hdb' |]. intros conn ua i.
  unfold redirect, isExpired. by rewrite Hdb', Hexp'.
Qed.

(** ** Further properties of the handlers *)

Lemma evolves_trans st0 st1 st2 : evolves st0 st1 -> evolves st1 st2 -> evolves st0 st2.
Proof.
  intros H01. induction 1 as [|st now r st' resp _ IH Hstep]; [exact H01 |].
  by eapply evolves_step.
Qed.

(** The three things a request can be: without effect, a successful
    [POST /api/shorten], or a successful [GET /:shortCode]. *)
Lemma handle_cases st now r st' resp :
  handle st now r = Some (st', resp) ->
  (st' = st /\ (forall d, resp <> Created d) /\ (forall t, resp <> Redirected t)) \/
  (exists req uuid rnd fuel code,
     r = PostShorten req uuid rnd fuel /\
     truthy (body_originalUrl req) = true /\
     isValidUrl (default "" (body_originalUrl req)) = true /\
     (countActiveForCreator (urlDatabase st) (getClientIP (shorten_conn req)) now < 5)%nat /\
     generateShortCode fuel (urlDatabase st) rnd (body_customShortcode req)
       = Some (Return code) /\
     urlDatabase st !! code = None /\
     st' = mkState (<[code := storedRecord now req uuid code]> (urlDatabase st))
                   (<[code := emptyAnalytics]> (clickAnalytics st)) /\
     resp = Created (mkShortened (default "" (body_originalUrl req)) code
                       (expiryDate (storedRecord now req uuid code))
                       (validityPeriod (storedRecord now req uuid code)))) \/
  (exists code conn ua i urlData analytics,
     r = GetRedirect code conn ua i /\
     urlDatabase st !! code = Some urlData /\
     isExpired urlData now = false /\
     clickAnalytics st !! code = Some analytics /\
     st' = mkState (urlDatabase st)
             (<[code := recordClick analytics
                          (mkClick now (getClientIP conn) (js_or ua "unknown")
                             (getCoarseLocation i))]> (clickAnalytics st)) /\
     resp = Redirected (originalUrl urlData)).
Proof.
  assert (Hquiet : forall resp0, isFailure resp0 = true ->
            (forall d, resp0 <> Created d) /\ (forall t, resp0 <> Redirected t)).
  { intros [] Hf; try discriminate Hf. by split. }
  destruct r as [req uuid rnd fuel| |code|code conn ua i|]; simpl.
  - intros [[-> Hf]|(code & H)]%shorten_inv.
    + left. split; [reflexivity | by apply Hquiet].
    + right. left. exists req, uuid, rnd, fuel, code. split; [reflexivity | exact H].
  - intros [= <- <-]. left. by repeat split.
  - unfold getAnalytics. destruct (urlDatabase st !! code); intros [= <- <-];
      left; by repeat split.
  - intros [= H]. apply redirect_inv in H as [[-> Hf]|(urlData & analytics & H)].
    + left. split; [reflexivity | by apply Hquiet].
    + right. right. exists code, conn, ua, i, urlData, analytics.
      split; [reflexivity | exact H].
  - intros [= <- <-]. left. by repeat split.
Qed.

(** X1: a request changes the state exactly when it answers [Created] or
    with a redirect: every failure, and every request to [/api/urls],
    [/api/analytics/:shortCode] and [/api/health], leaves both maps as they
    are, and every [Created] and every redirect changes them. *)
Theorem state_changes_iff_created_or_redirected st now r st' resp :
  handle st now r = Some (st', resp) ->
  (st' = st <-> (forall d, resp <> Created d) /\ (forall t, resp <> Redirected t)).
Proof.
  intros [(-> & Hc & Hr)|[(req & uuid & rnd & fuel & code & _ & _ & _ & _ & _ &
                            Hfresh & -> & ->)|
                           (code & conn & ua & i & urlData & analytics & _ & _ & _ &
                            Han & -> & ->)]]%handle_cases.
  - by split.
  - split.
    + intros Heq. apply (f_equal (fun s => urlDatabase s !! code)) in Heq.
      simpl in Heq. rewrite lookup_insert_eq, Hfresh in Heq. discriminate.
    + intros [Hc _]. exfalso. by eapply Hc.
  - split.
    + intros Heq. apply (f_equal (fun s => totalClicks <$> clickAnalytics s !! code)) in Heq.
      simpl in Heq. rewrite lookup_insert_eq, Han in Heq. simpl in Heq.
      injection Heq as Heq. lia.
    + intros [_ Hr]. exfalso. by eapply Hr.
Qed.

(** X2: nothing is ever removed or replaced: along any requests from a
    reachable state the registry only gains records (so its size never
    decreases), and every analytics entry keeps the clicks it has, in
    order, at the front of its click sequence, its counter never
    decreasing. *)
Theorem state_only_grows st st' :
  reachable st ->
  evolves st st' ->
  urlDatabase st ⊆ urlDatabase st' /\
  (size (urlDatabase st) <= size (urlDatabase st'))%nat /\
  (forall code analytics,
     clickAnalytics st !! code = Some analytics ->
     exists analytics',
       clickAnalytics st' !! code = Some analytics' /\
       clicks analytics `prefix_of` clicks analytics' /\
       (totalClicks analytics <= totalClicks analytics')%nat).
Proof.
  intros Hreach Hev.
  assert (Hgrow : urlDatabase st ⊆ urlDatabase st' /\
    forall code analytics,
      clickAnalytics st !! code = Some analytics ->
      exists analytics',
        clickAnalytics st' !! code = Some analytics' /\
        clicks analytics `prefix_of` clicks analytics' /\
        (totalClicks analytics <= totalClicks analytics')%nat).
  { induction Hev as [|st1 now r st2 resp Hev [IHdb IHan] Hstep].
    - split; [reflexivity |]. intros code a Ha. exists a. by repeat split.
    - assert (Hreach1 : reachable st1) by (by eapply evolves_trans).
      apply handle_effect in Hstep
        as [->|code record Hfresh ->|code a click _ Ha ->]; simpl.
      + by split.
      + split; [etrans; [exact IHdb | by apply insert_subseteq] |].
        intros c a Hc. destruct (IHan c a Hc) as (a' & Ha' & Hpre & Hle).
        exists a'. split; [| by split].
        rewrite lookup_insert_ne; [exact Ha' |]. intros <-.
        assert (Hnone : clickAnalytics st1 !! code = None).
        { apply not_elem_of_dom. rewrite <- (reachable_dom st1 Hreach1).
          by apply not_elem_of_dom. }
        congruence.
      + split; [exact IHdb |].
        intros c a0 Hc. destruct (IHan c a0 Hc) as (a' & Ha' & Hpre & Hle).
        destruct (decide (code = c)) as [->|Hne].
        * exists (recordClick a click). rewrite lookup_insert_eq.
          split; [reflexivity |]. assert (a' = a) as -> by congruence.
          simpl. split; [by apply prefix_app_r | lia].
        * exists a'. by rewrite lookup_insert_ne. }
  destruct Hgrow as [Hdb Han]. split; [exact Hdb |].
  split; [by apply map_subseteq_size | exact Han].
Qed.

(** Every stored record is the one a successful [POST /api/shorten] built. *)
Lemma reachable_records (P : string -> UrlData -> Prop) :
  (forall db rnd fuel now req uuid code,
     truthy (body_originalUrl req) = true ->
     isValidUrl (default "" (body_originalUrl req)) = true ->
     generateShortCode fuel db rnd (body_customShortcode req) = Some (Return code) ->
     P code (storedRecord now req uuid code)) ->
  forall st, reachable st ->
  forall code record, urlDatabase st !! code = Some record -> P code record.
Proof.
  intros HP st. induction 1 as [|st now r st' resp _ IH Hstep]; intros c record.
  - simpl. by rewrite lookup_empty.
  - apply handle_cases in Hstep
      as [(-> & _)|[(req & uuid & rnd & fuel & code & _ & Hurl & Hvalid & _ & Hgen &
                      _ & -> & _)|
                     (code & conn & ua & i & urlData & analytics & _ & _ & _ & _ & -> & _)]];
      simpl; [apply IH | | apply IH].
    rewrite lookup_insert. case_decide as Hc; [| apply IH].
    intros [= <-]. subst c. by eapply HP.
Qed.

Lemma js_or_nonempty (x : option string) (d : string) : d <> "" -> js_or x d <> "".
Proof.
  intros Hd. unfold js_or. destruct x as [s|]; [| exact Hd].
  destruct (String.eqb s "") eqn:E; [exact Hd |].
  intros ->. by rewrite String.eqb_refl in E.
Qed.

Lemma getClientIP_nonempty (conn : Connection) : getClientIP conn <> "".
Proof. unfold getClientIP. by repeat apply js_or_nonempty. Qed.

Lemma validityMinutesOf_nonzero (v : option Z) : validityMinutesOf v <> 0.
Proof.
  unfold validityMinutesOf. destruct v as [v|]; [| lia].
  destruct (v =? 0) eqn:E; [lia | by apply Z.eqb_neq].
Qed.

(** X3: every record a reachable registry holds is stored under its own
    [shortCode], has an [originalUrl] that passes [isValidUrl], a creator
    that is not the empty string, [isActive] true and a [validityPeriod]
    that is not zero. *)
Theorem stored_records_are_well_formed st code record :
  reachable st ->
  urlDatabase st !! code = Some record ->
  shortCode record = code /\
  isValidUrl (originalUrl record) = true /\
  createdBy record <> "" /\
  isActive record = true /\
  validityPeriod record <> 0.
Proof.
  intros Hreach. revert st Hreach code record.
  apply reachable_records.
  intros db rnd fuel now req uuid code Hurl Hvalid Hgen. simpl.
  split; [reflexivity |]. split; [exact Hvalid |].
  split; [apply getClientIP_nonempty |]. split; [reflexivity |].
  apply validityMinutesOf_nonzero.
Qed.

Lemma charAt_length (s : string) (i : nat) : (String.length (charAt s i) <= 1)%nat.
Proof. unfold charAt. destruct (String.get i s); simpl; lia. Qed.

Lemma drawLoop_length_le (n : nat) (rnd : nat -> nat) (k : nat) (result : string) :
  (String.length (drawLoop n rnd k result) <= String.length result + n)%nat.
Proof.
  revert k result. induction n as [|n IH]; intros k result; simpl; [lia |].
  etrans; [apply IH |]. rewrite length_append.
  pose proof (charAt_length chars (rnd k)). lia.
Qed.

Lemma attempt_length_le (rnd : nat -> nat) (k : nat) :
  (String.length (attempt rnd k) <= 6)%nat.
Proof.
  revert rnd. induction k as [|k IH]; intros rnd; simpl; [| apply IH].
  apply (drawLoop_length_le 6 rnd 0 "").
Qed.

Lemma provided_inv (customCode : option string) (code : string) :
  provided customCode = Some code -> customCode = Some code /\ code <> "".
Proof.
  unfold provided, truthy. destruct customCode as [c|]; [| discriminate].
  destruct (String.eqb c "") eqn:E; simpl; [discriminate |].
  intros [= ->]. split; [reflexivity |]. intros ->. by rewrite String.eqb_refl in E.
Qed.

(** What [generateShortCode] returns is made of characters of the class
    and is at most twenty characters long. *)
Lemma generateShortCode_shape fuel db rnd customCode code :
  generateShortCode fuel db rnd customCode = Some (Return code) ->
  inCodeClass code /\ (String.length code <= 20)%nat.
Proof.
  destruct (provided customCode) as [c|] eqn:Hp.
  - destruct fuel as [|fuel]; [discriminate |]. simpl. rewrite Hp.
    apply provided_inv in Hp as [_ Hne].
    destruct (matchesCodeRegex c) eqn:Hre; simpl; [| discriminate].
    destruct (String.length c <? 3)%nat eqn:Hlo; simpl; [discriminate |].
    destruct (20 <? String.length c)%nat eqn:Hhi; [discriminate |].
    destruct (has db c); [discriminate |]. intros [= <-].
    split; [by apply matchesCodeRegex_inCodeClass | by apply Nat.ltb_ge in Hhi].
  - intros (k & _ & [= ->] & _)%generateShortCode_random_inv; [| done].
    split; [apply alphanumeric_inCodeClass, attempt_alphanumeric |].
    pose proof (attempt_length_le rnd k). lia.
Qed.

Lemma reachable_code_shape st code :
  reachable st ->
  is_Some (urlDatabase st !! code) ->
  inCodeClass code /\ (String.length code <= 20)%nat.
Proof.
  intros Hreach [record Hdb]. revert st Hreach code record Hdb.
  apply (reachable_records (fun code _ => inCodeClass code /\ (String.length code <= 20)%nat)).
  intros db rnd fuel now req uuid code _ _ Hgen. by eapply generateShortCode_shape.
Qed.

Lemma reachable_shortCode st code record :
  reachable st -> urlDatabase st !! code = Some record -> shortCode record = code.
Proof.
  intros Hreach. revert st Hreach code record.
  apply (reachable_records (fun code record => shortCode record = code)). reflexivity.
Qed.

(** X4: when every request body holds a string, or nothing, as custom code
    (as the form of the page posts it, and as [ShortenRequest] has it),
    every code a reachable registry holds is made of the characters A-Z,
    a-z, 0-9, hyphen and underscore only, and is at most twenty characters
    long. *)
Theorem stored_codes_are_in_class st code :
  reachable st ->
  is_Some (urlDatabase st !! code) ->
  inCodeClass code /\ (String.length code <= 20)%nat.
Proof. apply reachable_code_shape. Qed.

(** X5: a link that has been created resolves, when the custom code of
    the request is a string or absent (as [ShortenRequest] has it) and the
    returned [expiryDate] is a time value a [Date] can hold: after the
    [Created] answer and any further requests, [GET /:shortCode] for the
    returned code redirects to the returned [originalUrl] when the clock
    reads an instant up to and including the returned [expiryDate], and
    answers [ShortCodeExpired] with that date when it reads a later
    instant. *)
Theorem created_link_resolves st now r st1 data st2 :
  reachable st ->
  handle st now r = Some (st1, Created data) ->
  validTime (res_expiryDate data) ->
  evolves st1 st2 ->
  forall now' conn ua i,
    (now' ≤ res_expiryDate data ->
     (redirect st2 now' (res_shortCode data) conn ua i).2
       = Redirected (res_originalUrl data)) /\
    (res_expiryDate data < now' ->
     redirect st2 now' (res_shortCode data) conn ua i
       = (st2, ShortCodeExpired (res_expiryDate data))).
Proof.
  intros Hreach Hstep _ Hev now' conn ua i.
  assert (Hreach2 : reachable st2).
  { eapply evolves_trans; [| exact Hev]. by eapply evolves_step. }
  apply handle_cases in Hstep
    as [(_ & Hc & _)|[(req & uuid & rnd & fuel & code & _ & _ & _ & _ & _ & _ & -> & Hresp)|
                       (? & ? & ? & ? & ? & ? & _ & _ & _ & _ & _ & [=])]];
    [exfalso; by eapply Hc |].
  injection Hresp as ->. simpl.
  assert (Hdb : urlDatabase st2 !! code = Some (storedRecord now req uuid code)).
  { eapply evolves_record; [exact Hev |]. simpl. apply lookup_insert_eq. }
  destruct (reachable_analytics st2 code Hreach2) as [analytics Han]; [eauto |].
  unfold redirect, isExpired. rewrite Hdb, Han. simpl. split; intros Ht.
  - apply Z.ltb_ge in Ht. by rewrite Ht.
  - apply Z.ltb_lt in Ht. by rewrite Ht.
Qed.

(** X6: a code is never given out twice: once the registry holds a code,
    expired or not, a [POST /api/shorten] that asks for it as custom code
    (with a valid URL and a creator below the quota) fails with
    [ShortcodeCollision] and changes nothing. *)
Theorem stored_code_cannot_be_taken_again st now req uuid rnd fuel code :
  reachable st ->
  is_Some (urlDatabase st !! code) ->
  (3 <= String.length code)%nat ->
  body_customShortcode req = Some code ->
  truthy (body_originalUrl req) = true ->
  isValidUrl (default "" (body_originalUrl req)) = true ->
  (countActiveForCreator (urlDatabase st) (getClientIP (shorten_conn req)) now < 5)%nat ->
  shorten st now req uuid rnd (S fuel) = Some (st, AllocationFailed ShortcodeCollision).
Proof.
  intros Hreach Hdb Hlen Hcustom Hurl Hvalid Hquota.
  destruct (reachable_code_shape st code Hreach Hdb) as [Hclass Hmax].
  assert (Hne : code <> "") by (intros ->; simpl in Hlen; lia).
  unfold shorten. rewrite Hurl, Hvalid. cbn [negb].
  apply Nat.leb_gt in Hquota. rewrite Hquota, Hcustom.
  simpl. rewrite (provided_Some code Hne).
  apply (matchesCodeRegex_inCodeClass code Hne) in Hclass. rewrite Hclass. simpl.
  apply Nat.ltb_ge in Hlen. apply Nat.ltb_ge in Hmax. rewrite Hlen, Hmax. simpl.
  apply has_true in Hdb. by rewrite Hdb.
Qed.

(** X7: a link created with a negative [validityPeriod], its [expiryDate]
    still a time value a [Date] can hold, is expired from the start: the
    returned [expiryDate] precedes the creation, every [GET /:shortCode]
    for the code from the creation on answers [ShortCodeExpired], and the
    record is never counted by the quota filter. *)
Theorem negative_validity_is_born_expired st now req uuid rnd fuel st' data v :
  shorten st now req uuid rnd fuel = Some (st', Created data) ->
  body_validityPeriod req = Some v ->
  v < 0 ->
  validTime (res_expiryDate data) ->
  res_expiryDate data < now /\
  (forall t conn ua i, now ≤ t ->
     redirect st' t (res_shortCode data) conn ua i
       = (st', ShortCodeExpired (res_expiryDate data))) /\
  (forall clientIP t, now ≤ t ->
     countActiveForCreator (urlDatabase st') clientIP t
       = countActiveForCreator (urlDatabase st) clientIP t).
Proof.
  intros [[_ Hf]|(code & _ & _ & _ & _ & Hfresh & -> & Hresp)]%shorten_inv Hv Hneg _;
    [discriminate |].
  injection Hresp as ->. simpl. rewrite Hv. simpl.
  assert (Hz : (v =? 0) = false) by (apply Z.eqb_neq; lia). rewrite Hz.
  split; [lia |]. split.
  - intros t conn ua i Ht. unfold redirect, isExpired. simpl.
    rewrite lookup_insert_eq. simpl. rewrite Hv. simpl. rewrite Hz.
    assert (Hlt : (now + v * 60 * 1000 <? t) = true) by (apply Z.ltb_lt; lia).
    by rewrite Hlt.
  - intros clientIP t Ht. rewrite countActive_insert by done.
    case_decide as Hactive; [| reflexivity].
    destruct Hactive as [_ Hlive]. simpl in Hlive. rewrite Hv in Hlive.
    simpl in Hlive. rewrite Hz in Hlive. lia.
Qed.


(** ** The click history *)

Lemma Sorted_le_snoc (l : list Z) (y : Z) :
  Sorted Z.le l -> Forall (fun x => x ≤ y) l -> Sorted Z.le (l ++ [y]).
Proof.
  induction l as [|x l IH]; intros Hs Hall; simpl.
  - by repeat constructor.
  - apply Sorted_inv in Hs as [Hs Hhd]. apply Forall_cons in Hall as [Hx Hall].
    constructor; [by apply IH |].
    destruct l as [|x' l]; simpl; constructor; [exact Hx |].
    by apply HdRel_inv in Hhd.
Qed.

Lemma reachableAt_clicks T st :
  reachableAt T st ->
  forall code record analytics,
    urlDatabase st !! code = Some record ->
    clickAnalytics st !! code = Some analytics ->
    createdAt record ≤ T /\
    Sorted Z.le (timestamp <$> clicks analytics) /\
    Forall (fun click => createdAt record ≤ timestamp click /\
                         timestamp click ≤ T /\
                         ip click <> "" /\ userAgent click <> "")
           (clicks analytics).
Proof.
  induction 1 as [T|T st now r st' resp _ IH Hnow Hstep]; intros c record a.
  - simpl. by rewrite lookup_empty.
  - assert (Hold : forall record a,
              urlDatabase st !! c = Some record -> clickAnalytics st !! c = Some a ->
              createdAt record ≤ now /\
              Sorted Z.le (timestamp <$> clicks a) /\
              Forall (fun click => createdAt record ≤ timestamp click /\
                                   timestamp click ≤ now /\
                                   ip click <> "" /\ userAgent click <> "")
                     (clicks a)).
    { intros record0 a0 Hdb Han. destruct (IH c record0 a0 Hdb Han) as (Hc & Hs & Hall).
      split; [lia |]. split; [exact Hs |].
      eapply Forall_impl; [exact Hall |]. simpl. intros click (? & ? & ?). split; [done |].
      split; [lia | done]. }
    apply handle_cases in Hstep
      as [(-> & _)|[(req & uuid & rnd & fuel & code & _ & _ & _ & _ & _ & _ & -> & _)|
                     (code & conn & ua & i & urlData & analytics & _ & Hdb & Hexp & Han &
                      -> & _)]]; simpl.
    + apply Hold.
    + rewrite !lookup_insert. case_decide as Hc; [| apply Hold].
      intros [= <-] [= <-]. simpl. split; [lia |]. split; constructor.
    + rewrite lookup_insert. case_decide as Hc; [| apply Hold]. subst c.
      intros Hdb' [= <-]. assert (record = urlData) as -> by congruence.
      destruct (Hold urlData analytics Hdb Han) as (Hc & Hs & Hall).
      split; [exact Hc |]. simpl. rewrite fmap_app. simpl. split.
      * apply Sorted_le_snoc; [exact Hs |]. apply Forall_fmap.
        eapply Forall_impl; [exact Hall |]. simpl. by intros click (_ & ? & _).
      * apply Forall_app. split; [exact Hall |]. constructor; [| constructor]. simpl.
        unfold isExpired in Hexp. apply Z.ltb_ge in Hexp.
        repeat split; try lia; [apply getClientIP_nonempty |].
        by apply js_or_nonempty.
Qed.

(** X9: in every state reached by requests handled at instants that never
    decrease, the clicks of a code are in chronological order, none of
    them was recorded before the creation of the record of the code or
    after the last request, and none has an empty [ip] or [userAgent]. *)
Theorem clicks_are_chronological T st code record analytics :
  reachableAt T st ->
  urlDatabase st !! code = Some record ->
  clickAnalytics st !! code = Some analytics ->
  Sorted Z.le (timestamp <$> clicks analytics) /\
  Forall (fun click => createdAt record ≤ timestamp click /\
                       timestamp click ≤ T /\
                       ip click <> "" /\ userAgent click <> "")
         (clicks analytics).
Proof.
  intros Hreach Hdb Han.
  by destruct (reachableAt_clicks T st Hreach code record analytics Hdb Han) as (_ & ? & ?).
Qed.

(** X10: a visit shows in the analytics: after a [GET /:shortCode] that
    redirects, [GET /api/analytics/:shortCode] for the same code answers
    with the record of the code, a [totalClicks] one greater than before
    and the click history it had followed by the new click, which carries
    the instant of the visit, the address [getClientIP] finds, the
    [User-Agent] header or ["unknown"], and the mock location. *)
Theorem redirect_shows_in_analytics st now code conn ua i st' target :
  redirect st now code conn ua i = (st', Redirected target) ->
  exists record analytics,
    urlDatabase st !! code = Some record /\
    clickAnalytics st !! code = Some analytics /\
    target = originalUrl record /\
    forall now',
      getAnalytics st' now' code =
        (st', AnalyticsData
                (mkUrlStats record (S (totalClicks analytics)) (isExpired record now')
                   (clicks analytics ++
                    [mkClick now (getClientIP conn) (js_or ua "unknown")
                       (getCoarseLocation i)]))).
Proof.
  intros [[_ Hf]|(record & analytics & Hdb & _ & Han & -> & Hresp)]%redirect_inv;
    [discriminate |].
  injection Hresp as ->. exists record, analytics.
  split; [exact Hdb |]. split; [exact Han |]. split; [reflexivity |].
  intros now'. unfold getAnalytics, analyticsOrEmpty. simpl.
  by rewrite Hdb, lookup_insert_eq.
Qed.

(** ** The statistics *)

Lemma foldl_add_sum {A : Type} (f : A -> nat) (l : list A) (a : nat) :
  foldl (fun total x => (total + f x)%nat) a l = (a + sum_list_with f l)%nat.
Proof.
  revert a. induction l as [|x l IH]; intros a; simpl; [lia |]. rewrite IH. lia.
Qed.

Lemma length_filter_fmap {A B : Type} (f : A -> B) (P : A -> Prop) (Q : B -> Prop)
    `{!forall x, Decision (P x)} `{!forall y, Decision (Q y)} (l : list A) :
  (forall x, P x <-> Q (f x)) ->
  length (filter Q (f <$> l)) = length (filter P l).
Proof.
  intros HPQ. induction l as [|x l IH]; [reflexivity |].
  rewrite fmap_cons, !filter_cons.
  destruct (decide (Q (f x))) as [Hq|Hq]; destruct (decide (P x)) as [Hp|Hp];
    simpl; try (by rewrite IH).
  - exfalso. by apply Hp, HPQ.
  - exfalso. by apply Hq, HPQ.
Qed.

Lemma values_length {A : Type} (m : gmap string A) : length (values m) = size m.
Proof. unfold values. by rewrite length_fmap, length_map_to_list. Qed.

Lemma reachable_listing st now entry data :
  reachable st ->
  listUrls st now = (st, UrlList data) ->
  entry ∈ data ->
  urlDatabase st !! shortCode (stats_url entry) = Some (stats_url entry) /\
  stats_isExpired entry = isExpired (stats_url entry) now /\
  stats_totalClicks entry = length (stats_clickHistory entry).
Proof.
  intros Hreach [= <-] (url & -> & Hin)%list_elem_of_fmap. simpl.
  apply elem_of_values in Hin as [code Hdb].
  pose proof (reachable_shortCode st code url Hreach Hdb) as Hcode. rewrite Hcode.
  split; [exact Hdb |]. split; [reflexivity |].
  rewrite length_fmap. unfold analyticsOrEmpty.
  destruct (clickAnalytics st !! code) as [a|] eqn:Han; simpl; [| reflexivity].
  by apply (reachable_countsClicks st Hreach code).
Qed.

(** X11: the statistics page and the health check agree: in a reachable
    state all of whose expiry dates are time values a [Date] can hold, at
    one instant, [GET /api/urls] lists one entry for each record of the
    registry, as many as the [totalUrls] of [GET /api/health]; the
    number of entries the page counts as active ([getActiveUrls]) is the
    [activeUrls] of the health check, at most [totalUrls]; the
    [totalClicks] of each entry is the length of its click history, so
    that the total the page shows ([getTotalClicks]) is the number of all
    clicks listed. *)
Theorem statistics_agree_with_health st now :
  reachable st ->
  (forall code record, urlDatabase st !! code = Some record ->
                       validTime (expiryDate record)) ->
  exists data total active,
    listUrls st now = (st, UrlList data) /\
    health st now = (st, Health total active) /\
    length data = total /\
    total = size (urlDatabase st) /\
    getActiveUrls data = active /\
    (active <= total)%nat /\
    Forall (fun entry => stats_totalClicks entry = length (stats_clickHistory entry)) data /\
    getTotalClicks data = sum_list_with (fun entry => length (stats_clickHistory entry)) data.
Proof.
  intros Hreach _. eexists _, _, _. split; [reflexivity |]. split; [reflexivity |].
  assert (Hall : Forall (fun entry : UrlStats (Z * option string) =>
                   stats_totalClicks entry = length (stats_clickHistory entry))
                   (match (listUrls st now).2 with UrlList data => data | _ => [] end)).
  { apply Forall_forall. intros entry Hin.
    by eapply (reachable_listing st now entry). }
  simpl in Hall.
  split; [by rewrite length_fmap, values_length |]. split; [reflexivity |].
  split; [| split; [| split; [exact Hall |]]].
  - unfold getActiveUrls. apply length_filter_fmap. intros url. simpl.
    unfold isExpired. rewrite Z.ltb_ge. reflexivity.
  - etrans; [apply length_filter |]. by rewrite values_length.
  - unfold getTotalClicks. rewrite foldl_add_sum. simpl.
    induction Hall as [|entry data Hentry _ IH]; [reflexivity |].
    simpl. by rewrite Hentry, IH.
Qed.

(** X12: no two records of a reachable registry share a [shortCode]: the
    short codes of the records [GET /api/urls] lists are pairwise
    distinct. *)
Theorem listed_short_codes_are_distinct st now data :
  reachable st ->
  listUrls st now = (st, UrlList data) ->
  NoDup (shortCode <$> values (urlDatabase st)) /\
  NoDup ((fun entry => shortCode (stats_url entry)) <$> data).
Proof.
  intros Hreach [= <-].
  assert (Hkeys : shortCode <$> values (urlDatabase st) = (map_to_list (urlDatabase st)).*1).
  { unfold values. rewrite <- list_fmap_compose. apply Forall_fmap_ext, Forall_forall.
    intros [code record] Hin%elem_of_map_to_list. simpl.
    by apply (reachable_shortCode st). }
  assert (Hnodup : NoDup (shortCode <$> values (urlDatabase st))).
  { rewrite Hkeys. apply NoDup_fst_map_to_list. }
  split; [exact Hnodup |].
  by rewrite <- list_fmap_compose.
Qed.

(** X13: the row of a link on the statistics page accounts for all its
    clicks: for every entry [GET /api/urls] lists in a reachable state, the
    locations shown ([clickHistory.slice(-3)], at most three, the most
    recent ones in order) and the number of the label [+N more] add up to
    the [totalClicks] of the entry. *)
Theorem click_chips_account_for_all_clicks st now data entry :
  reachable st ->
  listUrls st now = (st, UrlList data) ->
  entry ∈ data ->
  (length (lastThree (stats_clickHistory entry)) <= 3)%nat /\
  lastThree (stats_clickHistory entry) `suffix_of` stats_clickHistory entry /\
  (length (lastThree (stats_clickHistory entry)) +
   default O (moreClicks (stats_clickHistory entry)))%nat = stats_totalClicks entry.
Proof.
  intros Hreach Hlist Hin.
  destruct (reachable_listing st now entry data Hreach Hlist Hin) as (_ & _ & ->).
  unfold lastThree, moreClicks. rewrite length_drop.
  split; [lia |]. split; [apply suffix_drop |].
  destruct (3 <? length (stats_clickHistory entry))%nat eqn:E; simpl;
    [apply Nat.ltb_lt in E | apply Nat.ltb_ge in E]; lia.
Qed.

(** ** The form and the server *)



Lemma run_evolves tr : forall st T T' st',
  run st T tr = Some (T', st') -> evolves st st'.
Proof.
  induction tr as [|[now r] tr IH]; intros st T T' st'; simpl.
  - intros [= _ <-]. apply evolves_refl.
  - case_decide; [| discriminate].
    destruct (handle st now r) as [[st1 resp]|] eqn:Hstep; [| discriminate].
    intros Hrun. eapply evolves_trans; [| by eapply IH].
    eapply evolves_step; [apply evolves_refl | exact Hstep].
Qed.

(** ** The failures *)

(** X15: when the request bodies hold strings, or nothing, as original
    URL and custom code (as [ShortenRequest] has them; the logging calls
    then throw nothing), in a reachable state the handlers fail with four
    statuses only:
    400 and 429 from [POST /api/shorten] (429 for the quota), 404 from the
    two handlers that look a code up, when the registry does not hold it,
    and 410 from [GET /:shortCode], when the record has expired; the
    answer carries [expiredAt], the [expiryDate] of the record, with
    status 410 and never otherwise; status 500 is not among them. *)
Theorem failure_statuses st now r st' status error expiredAt :
  reachable st ->
  handle st now r = Some (st', Failure status error expiredAt) ->
  (status = 400%nat /\ expiredAt = None /\
   exists req uuid rnd fuel, r = PostShorten req uuid rnd fuel) \/
  (status = 429%nat /\ expiredAt = None /\
   error = "Maximum 5 concurrent shortened URLs allowed" /\
   exists req uuid rnd fuel, r = PostShorten req uuid rnd fuel) \/
  (status = 404%nat /\ expiredAt = None /\ error = "Short URL not found" /\
   exists code, urlDatabase st !! code = None /\
     (r = GetAnalytics code \/ exists conn ua i, r = GetRedirect code conn ua i)) \/
  (status = 410%nat /\ error = "Short URL has expired" /\
   exists code conn ua i record,
     r = GetRedirect code conn ua i /\
     urlDatabase st !! code = Some record /\
     expiryDate record < now /\
     expiredAt = Some (expiryDate record)).
Proof.
  intros Hreach.
  destruct r as [req uuid rnd fuel| |code|code conn ua i|]; simpl.
  - unfold shorten.
    destruct (truthy (body_originalUrl req)); cbn [negb];
      [| intros [= _ <- <- <-]; left; eauto 10].
    destruct (isValidUrl _); cbn [negb]; [| intros [= _ <- <- <-]; left; eauto 10].
    destruct (Nat.leb 5 _); [intros [= _ <- <- <-]; right; left; eauto 10 |].
    destruct (generateShortCode _ _ _ _) as [[c|m]|]; [discriminate | | discriminate].
    intros [= _ <- <- <-]. left. eauto 10.
  - discriminate.
  - unfold getAnalytics. destruct (urlDatabase st !! code) eqn:Hdb; [discriminate |].
    intros [= _ <- <- <-]. right. right. left. eauto 10.
  - unfold redirect. destruct (urlDatabase st !! code) as [record|] eqn:Hdb.
    + destruct (isExpired record now) eqn:Hexp.
      * intros [= _ <- <- <-]. right. right. right.
        unfold isExpired in Hexp. apply Z.ltb_lt in Hexp.
        split; [reflexivity |]. split; [reflexivity |].
        by exists code, conn, ua, i, record.
      * destruct (reachable_analytics st code Hreach) as [a Ha]; [eauto |].
        rewrite Ha. discriminate.
    + intros [= _ <- <- <-]. right. right. left.
      split; [reflexivity |]. split; [reflexivity |]. split; [reflexivity |].
      exists code. split; [exact Hdb |]. right. eauto.
  - discriminate.
Qed.

(** ** The create handler on the clock and the call stack *)

Lemma runtime_has_true (db : gmap string Runtime.UrlData) (code : string) :
  Runtime.has db code = true <-> is_Some (db !! code).
Proof. unfold Runtime.has. apply bool_decide_eq_true. Qed.

Lemma runtime_has_false (db : gmap string Runtime.UrlData) (code : string) :
  Runtime.has db code = false <-> db !! code = None.
Proof. unfold Runtime.has. by rewrite bool_decide_eq_false, eq_None_not_Some. Qed.

(** One call on the random path: return the drawn code, call again on the
    rest of the random stream, or find the call stack exhausted. *)
Lemma runtime_generate_draw depth db rnd customCode :
  provided customCode = None ->
  Runtime.generateShortCode depth db rnd customCode =
    if Runtime.has db (drawCode rnd) then
      match depth with
      | O => Throw Runtime.StackOverflow
      | S depth' => Runtime.generateShortCode depth' db (afterDraw rnd) None
      end
    else Return (drawCode rnd).
Proof. intros H. destruct depth; simpl; by rewrite H. Qed.

Lemma runtime_generate_returns k : forall depth db rnd customCode,
  provided customCode = None ->
  (forall j, (j < k)%nat -> is_Some (db !! attempt rnd j)) ->
  db !! attempt rnd k = None ->
  (k <= depth)%nat ->
  Runtime.generateShortCode depth db rnd customCode = Return (attempt rnd k).
Proof.
  induction k as [|k IH]; intros depth db rnd customCode Hp Hbusy Hfree Hdepth;
    rewrite runtime_generate_draw by done.
  - simpl in Hfree. by apply runtime_has_false in Hfree as ->.
  - assert (H0 : Runtime.has db (drawCode rnd) = true)
      by (apply runtime_has_true, (Hbusy O); lia).
    rewrite H0. destruct depth as [|depth]; [lia |].
    apply IH; [done | | done | lia]. intros j Hj. apply (Hbusy (S j)). lia.
Qed.

Lemma runtime_generate_overflow depth : forall db rnd customCode,
  provided customCode = None ->
  (forall j, (j <= depth)%nat -> is_Some (db !! attempt rnd j)) ->
  Runtime.generateShortCode depth db rnd customCode = Throw Runtime.StackOverflow.
Proof.
  induction depth as [|depth IH]; intros db rnd customCode Hp Hbusy;
    rewrite runtime_generate_draw by done;
    assert (H0 : Runtime.has db (drawCode rnd) = true)
      by (apply runtime_has_true, (Hbusy O); lia);
    rewrite H0; [reflexivity |].
  apply IH; [done |]. intros j Hj. apply (Hbusy (S j)). lia.
Qed.

Lemma runtime_generate_random_inv depth : forall db rnd customCode o,
  provided customCode = None ->
  Runtime.generateShortCode depth db rnd customCode = o ->
  (exists k, (k <= depth)%nat /\ o = Return (attempt rnd k) /\
             db !! attempt rnd k = None /\
             forall j, (j < k)%nat -> is_Some (db !! attempt rnd j)) \/
  (o = Throw Runtime.StackOverflow /\
   forall j, (j <= depth)%nat -> is_Some (db !! attempt rnd j)).
Proof.
  induction depth as [|depth IH]; intros db rnd customCode o Hp;
    rewrite runtime_generate_draw by done;
    destruct (Runtime.has db (drawCode rnd)) eqn:E.
  - intros <-. right. split; [reflexivity |].
    intros j Hj. assert (j = O) as -> by lia. by apply runtime_has_true.
  - intros <-. left. exists O. split; [lia |]. split; [reflexivity |].
    split; [by apply runtime_has_false |]. intros j Hj. lia.
  - intros [(k & Hk & -> & Hfree & Hbusy)|[-> Hbusy]]%IH; [| | done].
    + left. exists (S k). split; [lia |]. split; [reflexivity |]. split; [exact Hfree |].
      intros [|j] Hj; [by apply runtime_has_true | apply Hbusy; lia].
    + right. split; [reflexivity |].
      intros [|j] Hj; [by apply runtime_has_true | apply Hbusy; lia].
  - intros <-. left. exists O. split; [lia |]. split; [reflexivity |].
    split; [by apply runtime_has_false |]. intros j Hj. lia.
Qed.

Lemma runtime_generate_inv depth db rnd customCode code :
  Runtime.generateShortCode depth db rnd customCode = Return code ->
  db !! code = None.
Proof.
  destruct (provided customCode) as [c|] eqn:Hp.
  - destruct depth; simpl; rewrite Hp; repeat case_match; try discriminate;
      intros [= <-]; by apply runtime_has_false.
  - intros [(k & _ & [= ->] & Hfree & _)|[[=] _]]%runtime_generate_random_inv; done.
Qed.

Lemma runtime_shorten_inv st filterClock dateNow createdNow req uuid rnd depth st' data :
  Runtime.shorten URL_protocol st filterClock dateNow createdNow req uuid rnd depth
    = (st', Runtime.Created data) ->
  exists code,
    Runtime.generateShortCode depth (Runtime.urlDatabase st) rnd (body_customShortcode req)
      = Return code /\
    Runtime.urlDatabase st !! code = None /\
    data = Runtime.mkShortened (default "" (body_originalUrl req)) code
             (Runtime.newDate (dateNow + validityMinutesOf (body_validityPeriod req) * 60 * 1000))
             (validityMinutesOf (body_validityPeriod req)) /\
    Runtime.urlDatabase st' !! code
      = Some (Runtime.mkUrlData uuid (default "" (body_originalUrl req)) code
                (Runtime.newDate createdNow)
                (Runtime.newDate
                   (dateNow + validityMinutesOf (body_validityPeriod req) * 60 * 1000))
                (getClientIP (shorten_conn req)) true
                (validityMinutesOf (body_validityPeriod req))).
Proof.
  unfold Runtime.shorten.
  destruct (truthy (body_originalUrl req)); cbn [negb]; [| discriminate].
  destruct (isValidUrl _); cbn [negb]; [| discriminate].
  destruct (Nat.leb 5 _); [discriminate |].
  destruct (Runtime.generateShortCode _ _ _ _) as [code|message] eqn:Hgen;
    [| discriminate].
  intros [= <- <-]. exists code. split; [reflexivity |].
  split; [by eapply runtime_generate_inv |]. split; [reflexivity |].
  simpl. by rewrite lookup_insert_eq.
Qed.

Lemma newDate_valid (t : Z) : validTime t -> Runtime.newDate t = Some t.
Proof.
  unfold validTime, Runtime.newDate. intros Ht.
  assert (H : (Z.abs t <=? Runtime.maxTime) = true) by (apply Z.leb_le; lia).
  by rewrite H.
Qed.

Lemma newDate_invalid (t : Z) : ~ validTime t -> Runtime.newDate t = None.
Proof.
  unfold validTime, Runtime.newDate. intros Ht.
  assert (H : (Z.abs t <=? Runtime.maxTime) = false) by (apply Z.leb_gt; lia).
  by rewrite H.
Qed.

(** C7 (amended): the retries of [generateShortCode] are bounded by the
    call stack of the runtime and by nothing else.  Without a custom code,
    on a stack with room for [depth] calls below the first, the
    allocation returns the first drawn code the registry does not hold
    when it is among the first [depth + 1] draws, however many that is;
    when these draws all collide it throws the [RangeError] of the
    exhausted stack, which [POST /api/shorten] answers with status 400 and
    the message of the error, the state unchanged; it throws nothing else
    on this path: there is no cap of its own and no [CodeSpaceExhausted]. *)
Theorem retries_end_with_the_stack (db : gmap string Runtime.UrlData)
    (rnd : nat -> nat) (customCode : option string) (depth k : nat) :
  customCode = None \/ customCode = Some "" ->
  (forall j, (j < k)%nat -> is_Some (db !! attempt rnd j)) ->
  ((k <= depth)%nat -> db !! attempt rnd k = None ->
   Runtime.generateShortCode depth db rnd customCode = Return (attempt rnd k)) /\
  ((depth < k)%nat ->
   Runtime.generateShortCode depth db rnd customCode = Throw Runtime.StackOverflow) /\
  (forall message,
     Runtime.generateShortCode depth db rnd customCode = Throw message ->
     message = Runtime.StackOverflow /\
     forall j, (j <= depth)%nat -> is_Some (db !! attempt rnd j)) /\
  (forall st filterClock dateNow createdNow req uuid,
     Runtime.urlDatabase st = db ->
     body_customShortcode req = customCode ->
     truthy (body_originalUrl req) = true ->
     isValidUrl (default "" (body_originalUrl req)) = true ->
     (Runtime.countActiveForCreator db (getClientIP (shorten_conn req)) filterClock < 5)%nat ->
     (depth < k)%nat ->
     Runtime.shorten URL_protocol st filterClock dateNow createdNow req uuid rnd depth
       = (st, Runtime.Failure 400 Runtime.StackOverflow)).
Proof.
  intros Hnone%provided_None Hbusy.
  assert (Hover : (depth < k)%nat ->
            Runtime.generateShortCode depth db rnd customCode
              = Throw Runtime.StackOverflow).
  { intros Hk. apply runtime_generate_overflow; [done |].
    intros j Hj. apply Hbusy. lia. }
  split; [intros Hk Hfree; by apply runtime_generate_returns |].
  split; [exact Hover |]. split.
  - intros message Hgen.
    by apply runtime_generate_random_inv in Hgen
      as [(? & _ & [=] & _)|[[= ->] ?]].
  - intros st filterClock dateNow createdNow req uuid <- Hcustom Hurl Hvalid Hquota Hk.
    unfold Runtime.shorten. rewrite Hurl, Hvalid. cbn [negb].
    apply Nat.leb_gt in Hquota. rewrite Hquota, Hcustom. by rewrite (Hover Hk).
Qed.

(** ** Validity period, creation date and expiry date *)

(** C3 (amended): after every successful [POST /api/shorten] the record
    stored under the returned code has, as [validityPeriod], the supplied
    value when it is not zero and 30 when it is absent or zero; its
    [createdAt] is the date of the reading of the clock when the record is
    built; its [expiryDate] is the date of the earlier reading of the
    clock by [Date.now()] plus [validityPeriod] minutes (of 60 * 1000
    milliseconds), an Invalid Date when that instant is more than 8.64e15
    milliseconds from the epoch; so that [expiryDate] is [createdAt] plus
    [validityPeriod] minutes when the two readings coincide and the sum is
    a valid date.  The response carries the same [expiryDate] and
    [validityPeriod]. *)
Theorem stored_validity_and_dates
    st filterClock dateNow createdNow req uuid rnd depth st' data :
  Runtime.shorten URL_protocol st filterClock dateNow createdNow req uuid rnd depth
    = (st', Runtime.Created data) ->
  exists record,
    Runtime.urlDatabase st' !! Runtime.res_shortCode data = Some record /\
    (forall v, body_validityPeriod req = Some v -> v <> 0 ->
               Runtime.validityPeriod record = v) /\
    (body_validityPeriod req = None \/ body_validityPeriod req = Some 0 ->
     Runtime.validityPeriod record = 30) /\
    Runtime.createdAt record = Runtime.newDate createdNow /\
    Runtime.expiryDate record
      = Runtime.newDate (dateNow + Runtime.validityPeriod record * (60 * 1000)) /\
    (validTime createdNow ->
     validTime (dateNow + Runtime.validityPeriod record * (60 * 1000)) ->
     Runtime.createdAt record = Some createdNow /\
     Runtime.expiryDate record
       = Some (dateNow + Runtime.validityPeriod record * (60 * 1000)) /\
     (dateNow = createdNow ->
      Runtime.expiryDate record
        = Some (createdNow + Runtime.validityPeriod record * (60 * 1000)))) /\
    (~ validTime (dateNow + Runtime.validityPeriod record * (60 * 1000)) ->
     Runtime.expiryDate record = None) /\
    Runtime.res_validityPeriod data = Runtime.validityPeriod record /\
    Runtime.res_expiryDate data = Runtime.expiryDate record.
Proof.
  intros (code & _ & _ & -> & Hdb)%runtime_shorten_inv. simpl.
  eexists. split; [exact Hdb |]. simpl.
  assert (Hmul : forall m, dateNow + m * 60 * 1000 = dateNow + m * (60 * 1000))
    by (intros; lia).
  rewrite !Hmul. split.
  { intros v -> Hv. simpl. destruct (v =? 0) eqn:E; [| reflexivity].
    apply Z.eqb_eq in E. contradiction. }
  split; [intros [->| ->]; reflexivity |].
  split; [reflexivity |]. split; [reflexivity |]. split.
  { intros Hc He. rewrite (newDate_valid _ Hc), (newDate_valid _ He).
    split; [reflexivity |]. split; [reflexivity |]. by intros ->. }
  split; [apply newDate_invalid | by split].
Qed.

(** ** The one-instant handler and the runtime *)





End Properties.

(** ** The properties on the sample inputs *)

Lemma stateAfter_reachableAt tr T st :
  run sampleProtocol init 0 tr = Some (T, st) -> reachableAt sampleProtocol T st.
Proof. apply run_reachableAt, reachableAt_init. Qed.

Lemma stateAfter_reachable tr T st :
  run sampleProtocol init 0 tr = Some (T, st) -> reachable sampleProtocol st.
Proof. intros H. eapply reachableAt_reachable, stateAfter_reachableAt, H. Qed.

(** An empty custom code is not rejected: the allocation takes it for an
    absent one and returns a generated code. *)
Lemma empty_custom_code_is_not_rejected :
  generateShortCode 1 ∅ zeros (Some "") = Some (Return "aaaaaa") /\
  generateShortCode 1 ∅ zeros (Some "") <> Some (Throw InvalidShortcodeFormat) /\
  generateShortCode 1 ∅ zeros (Some "") <> Some (Throw InvalidShortcodeLength) /\
  matchesCodeRegex "" = false /\
  String.length "" = O.
Proof. repeat split; try discriminate; vm_compute; reflexivity. Qed.

Lemma custom_code_validation_witness :
  "my-code_1" <> "" /\
  generateShortCode 1 busyRegistry zeros (Some "my-code_1") = Some (Return "my-code_1") /\
  generateShortCode 1 busyRegistry zeros (Some "ab") = Some (Throw InvalidShortcodeLength) /\
  generateShortCode 1 busyRegistry zeros (Some "abc!") = Some (Throw InvalidShortcodeFormat) /\
  generateShortCode 1 busyRegistry zeros (Some "aaaaaa") = Some (Throw ShortcodeCollision).
Proof.
  split; [discriminate |].
  split; [apply (custom_code_validation 0 busyRegistry zeros "my-code_1");
          [discriminate | compute_done | simpl; lia | reflexivity] |].
  split; [apply (custom_code_validation 0 busyRegistry zeros "ab");
          [discriminate | compute_done | simpl; lia] |].
  split; [apply (custom_code_validation 0 busyRegistry zeros "abc!");
          [discriminate | compute_done] |].
  apply (custom_code_validation 0 busyRegistry zeros "aaaaaa");
    [discriminate | compute_done | simpl; lia | vm_compute; eauto].
Defined.

(** No random indices make the allocation return ["ab-cd_"], a code of six
    characters of the class of custom codes. *)
Lemma generated_code_never_has_hyphen :
  inCodeClass "ab-cd_" /\ String.length "ab-cd_" = 6%nat /\
  ~ (exists fuel db rnd, generateShortCode fuel db rnd None = Some (Return "ab-cd_")).
Proof.
  split; [compute_done |]. split; [reflexivity |].
  intros (fuel & db & rnd & Hgen).
  apply generateShortCode_random_inv in Hgen as (k & _ & [= Hk] & _); [| reflexivity].
  pose proof (attempt_alphanumeric rnd k) as Hall. rewrite <- Hk in Hall.
  revert Hall. compute_done.
Qed.

Lemma random_code_allocation_witness :
  (@None string = None \/ @None string = Some "") /\
  (forall i, (collideOnce i < 62)%nat) /\
  (forall j, (j < 1)%nat -> is_Some (busyRegistry !! attempt collideOnce j)) /\
  busyRegistry !! attempt collideOnce 1 = None /\
  (1 < 2)%nat /\
  generateShortCode 2 busyRegistry collideOnce None = Some (Return "bbbbbb") /\
  String.length "bbbbbb" = 6%nat /\ inCodeClass "bbbbbb".
Proof.
  assert (H1 : forall i, (collideOnce i < 62)%nat).
  { intros i. unfold collideOnce. destruct (i <? 6)%nat; lia. }
  assert (H2 : forall j, (j < 1)%nat -> is_Some (busyRegistry !! attempt collideOnce j)).
  { intros [|j] Hj; [vm_compute; eauto | lia]. }
  assert (H3 : busyRegistry !! attempt collideOnce 1 = None) by (vm_compute; reflexivity).
  assert (H4 : (1 < 2)%nat) by lia.
  destruct (random_code_allocation busyRegistry collideOnce None 1 2 (or_introl eq_refl)
              H1 H2 H3 H4) as (Hgen & Hlen & _ & Hclass & _).
  repeat split; try assumption. by left.
Defined.

Lemma fiveLinks_run :
  run sampleProtocol init 0 fiveLinks = Some (4, stateAfter fiveLinks).
Proof. vm_compute. reflexivity. Qed.

Lemma linkAndVisits_run :
  run sampleProtocol init 0 linkAndVisits = Some (2000, stateAfter linkAndVisits).
Proof. vm_compute. reflexivity. Qed.

Lemma scenario_run :
  run sampleProtocol init 0 scenario = Some (0, stateAfter scenario).
Proof. vm_compute. reflexivity. Qed.



(** A visit after the expiry fails and leaves the counter of ["docs"] at 2. *)
Lemma resolve_failure_changes_nothing_witness :
  redirect (stateAfter linkAndVisits) 300001 "docs" alice None 0
    = (stateAfter linkAndVisits, ShortCodeExpired 300000) /\
  isFailure (ShortCodeExpired 300000) = true /\
  (totalClicks <$> clickAnalytics (stateAfter linkAndVisits) !! "docs") = Some 2%nat /\
  (totalClicks <$>
     clickAnalytics (redirect (stateAfter linkAndVisits) 300001 "docs" alice None 0).1
       !! "docs") = Some 2%nat.
Proof.
  assert (H : redirect (stateAfter linkAndVisits) 300001 "docs" alice None 0
              = (stateAfter linkAndVisits, ShortCodeExpired 300000))
    by (vm_compute; reflexivity).
  assert (Htwo : (totalClicks <$> clickAnalytics (stateAfter linkAndVisits) !! "docs")
                 = Some 2%nat) by (vm_compute; reflexivity).
  split; [exact H |]. split; [reflexivity |]. split; [exact Htwo |].
  destruct (resolve_failure_changes_nothing
              (stateAfter linkAndVisits) 300001 "docs" alice None 0%nat
              (redirect (stateAfter linkAndVisits) 300001 "docs" alice None 0).1
              (redirect (stateAfter linkAndVisits) 300001 "docs" alice None 0).2)
    as (_ & _ & _ & Hsame & _).
  - by destruct (redirect _ _ _ _ _ _).
  - by rewrite H.
  - by rewrite Hsame.
Defined.

(** After the two visits the counter of ["docs"] is 2, the length of its
    click sequence. *)
Lemma totalClicks_is_length_witness :
  reachable sampleProtocol (stateAfter linkAndVisits) /\
  exists analytics,
    clickAnalytics (stateAfter linkAndVisits) !! "docs" = Some analytics /\
    length (clicks analytics) = 2%nat /\
    totalClicks analytics = length (clicks analytics).
Proof.
  pose proof (stateAfter_reachable _ _ _ linkAndVisits_run) as Hreach.
  split; [exact Hreach |].
  destruct (totalClicks_is_length sampleProtocol _ Hreach) as (Hinv & _).
  destruct (clickAnalytics (stateAfter linkAndVisits) !! "docs") as [analytics|] eqn:Han;
    [| vm_compute in Han; discriminate].
  exists analytics. split; [reflexivity |].
  split; [| by apply (Hinv "docs")].
  vm_compute in Han. by injection Han as <-.
Defined.

Lemma registry_and_analytics_agree_witness :
  reachable sampleProtocol (stateAfter fiveLinks) /\
  dom (urlDatabase (stateAfter fiveLinks)) = dom (clickAnalytics (stateAfter fiveLinks)) /\
  size (urlDatabase (stateAfter fiveLinks)) = 5%nat.
Proof.
  pose proof (stateAfter_reachable _ _ _ fiveLinks_run) as Hreach.
  split; [exact Hreach |].
  split; [by destruct (registry_and_analytics_agree sampleProtocol _ Hreach) as [? _] |].
  vm_compute. reflexivity.
Defined.

Lemma expiry_is_monotonic_witness :
  isExpired sampleRecord 1800001 = true /\
  1800001 < 1800002 /\
  isExpired sampleRecord 1800002 = true.
Proof.
  assert (H1 : isExpired sampleRecord 1800001 = true) by reflexivity.
  assert (H2 : 1800001 < 1800002) by lia.
  split; [exact H1 |]. split; [exact H2 |].
  by destruct (expiry_is_monotonic sampleProtocol sampleRecord _ _ H1 H2) as [? _].
Defined.

(** ** The further properties on the sample inputs *)

Lemma linkOnly_run :
  run sampleProtocol init 0 linkOnly = Some (0, stateAfter linkOnly).
Proof. vm_compute. reflexivity. Qed.

Lemma twoVisits_run :
  run sampleProtocol (stateAfter linkOnly) 0 twoVisits
    = Some (2000, stateAfter linkAndVisits).
Proof. vm_compute. reflexivity. Qed.

Lemma bornExpired_run :
  run sampleProtocol init 0 bornExpired = Some (0, stateAfter bornExpired).
Proof. vm_compute. reflexivity. Qed.

(** A visit to an unknown code fails and changes nothing. *)
Lemma state_changes_iff_created_or_redirected_witness :
  handle sampleProtocol (stateAfter linkAndVisits) 3000 (GetRedirect "nope" alice None 0)
    = Some (stateAfter linkAndVisits, ShortCodeNotFound) /\
  (stateAfter linkAndVisits = stateAfter linkAndVisits <->
   (forall d, ShortCodeNotFound <> Created d) /\
   (forall t, ShortCodeNotFound <> Redirected t)).
Proof.
  assert (H : handle sampleProtocol (stateAfter linkAndVisits) 3000
                (GetRedirect "nope" alice None 0)
              = Some (stateAfter linkAndVisits, ShortCodeNotFound))
    by (vm_compute; reflexivity).
  split; [exact H |].
  exact (state_changes_iff_created_or_redirected sampleProtocol _ _ _ _ _ H).
Defined.

(** From the link to the link with its two visits: the record stays and
    the click history grows from nothing to two clicks. *)
Lemma state_only_grows_witness :
  reachable sampleProtocol (stateAfter linkOnly) /\
  evolves sampleProtocol (stateAfter linkOnly) (stateAfter linkAndVisits) /\
  urlDatabase (stateAfter linkOnly) ⊆ urlDatabase (stateAfter linkAndVisits) /\
  exists analytics',
    clickAnalytics (stateAfter linkAndVisits) !! "docs" = Some analytics' /\
    [] `prefix_of` clicks analytics' /\ (0 <= totalClicks analytics')%nat.
Proof.
  pose proof (stateAfter_reachable _ _ _ linkOnly_run) as Hreach.
  pose proof (run_evolves sampleProtocol _ _ _ _ _ twoVisits_run) as Hev.
  destruct (state_only_grows sampleProtocol _ _ Hreach Hev) as (Hsub & _ & Han).
  split; [exact Hreach |]. split; [exact Hev |]. split; [exact Hsub |].
  apply (Han "docs" emptyAnalytics). vm_compute. reflexivity.
Defined.

Lemma stored_records_are_well_formed_witness :
  reachable sampleProtocol (stateAfter fiveLinks) /\
  urlDatabase (stateAfter fiveLinks) !! "three"
    = Some (storedRecord 2 (sampleRequest (Some "three") None) "id-3" "three") /\
  isValidUrl sampleProtocol "https://example.com" = true /\
  validityPeriod (storedRecord 2 (sampleRequest (Some "three") None) "id-3" "three")
    <> 0.
Proof.
  pose proof (stateAfter_reachable _ _ _ fiveLinks_run) as Hreach.
  assert (Hdb : urlDatabase (stateAfter fiveLinks) !! "three"
                = Some (storedRecord 2 (sampleRequest (Some "three") None) "id-3" "three"))
    by (vm_compute; reflexivity).
  destruct (stored_records_are_well_formed sampleProtocol _ _ _ Hreach Hdb)
    as (_ & Hvalid & _ & _ & Hperiod).
  split; [exact Hreach |]. split; [exact Hdb |]. split; [exact Hvalid | exact Hperiod].
Defined.

Lemma stored_codes_are_in_class_witness :
  reachable sampleProtocol (stateAfter fiveLinks) /\
  is_Some (urlDatabase (stateAfter fiveLinks) !! "three") /\
  inCodeClass "three" /\ (String.length "three" <= 20)%nat.
Proof.
  pose proof (stateAfter_reachable _ _ _ fiveLinks_run) as Hreach.
  assert (Hdb : is_Some (urlDatabase (stateAfter fiveLinks) !! "three"))
    by (vm_compute; eauto).
  split; [exact Hreach |]. split; [exact Hdb |].
  exact (stored_codes_are_in_class sampleProtocol _ _ Hreach Hdb).
Defined.

(** The link ["docs"], valid for five minutes from instant 0, resolves at
    instant 300000 and is expired one millisecond later, two visits after
    its creation. *)
Lemma created_link_resolves_witness :
  reachable sampleProtocol init /\
  handle sampleProtocol init 0
    (PostShorten (sampleRequest (Some "docs") (Some 5)) "id-1" zeros 1)
    = Some (stateAfter linkOnly,
            Created (mkShortened "https://example.com" "docs" 300000 5)) /\
  validTime 300000 /\
  evolves sampleProtocol (stateAfter linkOnly) (stateAfter linkAndVisits) /\
  (redirect (stateAfter linkAndVisits) 300000 "docs" alice None 0).2
    = Redirected "https://example.com" /\
  redirect (stateAfter linkAndVisits) 300001 "docs" alice None 0
    = (stateAfter linkAndVisits, ShortCodeExpired 300000).
Proof.
  assert (Hreach : reachable sampleProtocol init) by apply evolves_refl.
  assert (Hstep : handle sampleProtocol init 0
                    (PostShorten (sampleRequest (Some "docs") (Some 5)) "id-1" zeros 1)
                  = Some (stateAfter linkOnly,
                          Created (mkShortened "https://example.com" "docs" 300000 5)))
    by (vm_compute; reflexivity).
  pose proof (run_evolves sampleProtocol _ _ _ _ _ twoVisits_run) as Hev.
  assert (Hvalid : validTime 300000) by (unfold validTime, Runtime.maxTime; lia).
  split; [exact Hreach |]. split; [exact Hstep |]. split; [exact Hvalid |].
  split; [exact Hev |].
  split.
  - destruct (created_link_resolves sampleProtocol _ _ _ _ _ _ Hreach Hstep Hvalid Hev
                300000 alice None 0%nat) as [Hlive _].
    apply Hlive. simpl. lia.
  - destruct (created_link_resolves sampleProtocol _ _ _ _ _ _ Hreach Hstep Hvalid Hev
                300001 alice None 0%nat) as [_ Hdead].
    apply Hdead. simpl. lia.
Defined.

(** The code ["docs"] cannot be taken again, even after its record has
    expired. *)
Lemma stored_code_cannot_be_taken_again_witness :
  reachable sampleProtocol (stateAfter linkAndVisits) /\
  is_Some (urlDatabase (stateAfter linkAndVisits) !! "docs") /\
  (3 <= String.length "docs")%nat /\
  isExpired (storedRecord 0 (sampleRequest (Some "docs") (Some 5)) "id-1" "docs") 400000
    = true /\
  shorten sampleProtocol (stateAfter linkAndVisits) 400000
    (sampleRequest (Some "docs") None) "id-2" zeros 1
    = Some (stateAfter linkAndVisits, AllocationFailed ShortcodeCollision).
Proof.
  pose proof (stateAfter_reachable _ _ _ linkAndVisits_run) as Hreach.
  assert (Hdb : is_Some (urlDatabase (stateAfter linkAndVisits) !! "docs"))
    by (vm_compute; eauto).
  assert (Hlen : (3 <= String.length "docs")%nat) by (simpl; lia).
  split; [exact Hreach |]. split; [exact Hdb |]. split; [exact Hlen |].
  split; [reflexivity |].
  apply (stored_code_cannot_be_taken_again sampleProtocol _ 400000
           (sampleRequest (Some "docs") None) "id-2" zeros 0%nat "docs" Hreach Hdb Hlen);
    [reflexivity | reflexivity | reflexivity | vm_compute; lia].
Defined.

Lemma negative_validity_is_born_expired_witness :
  shorten sampleProtocol init 0 (sampleRequest (Some "gone") (Some (-1))) "id-1" zeros 1
    = Some (stateAfter bornExpired,
            Created (mkShortened "https://example.com" "gone" (-60000) (-1))) /\
  -1 < 0 /\
  validTime (-60000) /\
  redirect (stateAfter bornExpired) 0 "gone" alice None 0
    = (stateAfter bornExpired, ShortCodeExpired (-60000)) /\
  countActiveForCreator (urlDatabase (stateAfter bornExpired)) "10.0.0.1" 0 = O.
Proof.
  assert (H : shorten sampleProtocol init 0 (sampleRequest (Some "gone") (Some (-1)))
                "id-1" zeros 1
              = Some (stateAfter bornExpired,
                      Created (mkShortened "https://example.com" "gone" (-60000) (-1))))
    by (vm_compute; reflexivity).
  assert (Hneg : -1 < 0) by lia.
  assert (Hvalid : validTime (-60000)) by (unfold validTime, Runtime.maxTime; lia).
  destruct (negative_validity_is_born_expired sampleProtocol _ _ _ _ _ _ _ _ (-1)
              H eq_refl Hneg Hvalid) as (_ & Hred & Hcount).
  split; [exact H |]. split; [exact Hneg |]. split; [exact Hvalid |].
  split; [apply (Hred 0 alice None 0%nat); lia |].
  rewrite (Hcount "10.0.0.1" 0) by lia. reflexivity.
Defined.


Lemma clicks_are_chronological_witness :
  reachableAt sampleProtocol 2000 (stateAfter linkAndVisits) /\
  urlDatabase (stateAfter linkAndVisits) !! "docs"
    = Some (storedRecord 0 (sampleRequest (Some "docs") (Some 5)) "id-1" "docs") /\
  clickAnalytics (stateAfter linkAndVisits) !! "docs"
    = Some (mkAnalytics 2
              [mkClick 1000 "10.0.0.1" "curl/8" (Some "London, UK");
               mkClick 2000 "10.0.0.1" "unknown" (Some "Sydney, AU")]) /\
  Sorted Z.le [1000; 2000].
Proof.
  pose proof (stateAfter_reachableAt _ _ _ linkAndVisits_run) as Hreach.
  assert (Hdb : urlDatabase (stateAfter linkAndVisits) !! "docs"
                = Some (storedRecord 0 (sampleRequest (Some "docs") (Some 5)) "id-1" "docs"))
    by (vm_compute; reflexivity).
  assert (Han : clickAnalytics (stateAfter linkAndVisits) !! "docs"
                = Some (mkAnalytics 2
                          [mkClick 1000 "10.0.0.1" "curl/8" (Some "London, UK");
                           mkClick 2000 "10.0.0.1" "unknown" (Some "Sydney, AU")]))
    by (vm_compute; reflexivity).
  split; [exact Hreach |]. split; [exact Hdb |]. split; [exact Han |].
  by destruct (clicks_are_chronological sampleProtocol _ _ _ _ _ Hreach Hdb Han) as [Hs _].
Defined.

Lemma redirect_shows_in_analytics_witness :
  redirect (stateAfter linkOnly) 1000 "docs" alice (Some "curl/8") 1
    = ((redirect (stateAfter linkOnly) 1000 "docs" alice (Some "curl/8") 1).1,
       Redirected "https://example.com") /\
  exists record,
    (getAnalytics (redirect (stateAfter linkOnly) 1000 "docs" alice (Some "curl/8") 1).1
       5000 "docs").2
    = AnalyticsData
        (mkUrlStats record 1 false
           [mkClick 1000 "10.0.0.1" "curl/8" (Some "London, UK")]).
Proof.
  assert (H : redirect (stateAfter linkOnly) 1000 "docs" alice (Some "curl/8") 1
              = ((redirect (stateAfter linkOnly) 1000 "docs" alice (Some "curl/8") 1).1,
                 Redirected "https://example.com"))
    by (vm_compute; reflexivity).
  split; [exact H |].
  destruct (redirect_shows_in_analytics _ _ _ _ _ _ _ _ H)
    as (record & analytics & Hdb & Han & _ & Hget).
  exists record. rewrite (Hget 5000).
  vm_compute in Hdb. injection Hdb as <-.
  vm_compute in Han. injection Han as <-. reflexivity.
Defined.

(** With five links, the page and the health check both count five, all
    active at instant 5. *)
Lemma statistics_agree_with_health_witness :
  reachable sampleProtocol (stateAfter fiveLinks) /\
  (forall code record, urlDatabase (stateAfter fiveLinks) !! code = Some record ->
                       validTime (expiryDate record)) /\
  (health (stateAfter fiveLinks) 5).2 = Health 5 5 /\
  length (listingOf (stateAfter fiveLinks) 5) = 5%nat /\
  getActiveUrls (listingOf (stateAfter fiveLinks) 5) = 5%nat.
Proof.
  pose proof (stateAfter_reachable _ _ _ fiveLinks_run) as Hreach.
  assert (Hhealth : (health (stateAfter fiveLinks) 5).2 = Health 5 5)
    by (vm_compute; reflexivity).
  assert (Hdates : forall code record,
            urlDatabase (stateAfter fiveLinks) !! code = Some record ->
            validTime (expiryDate record)).
  { assert (Hall : map_Forall
                     (fun (_ : string) record =>
                        - Runtime.maxTime ≤ expiryDate record ≤ Runtime.maxTime)
                     (urlDatabase (stateAfter fiveLinks))) by compute_done.
    intros code record Hdb. exact (Hall code record Hdb). }
  split; [exact Hreach |]. split; [exact Hdates |]. split; [exact Hhealth |].
  destruct (statistics_agree_with_health sampleProtocol _ 5 Hreach Hdates)
    as (data & total & active & Hlist & Hh & Hlen & _ & Hact & _).
  unfold listingOf. rewrite Hlist. simpl.
  rewrite Hh in Hhealth. simpl in Hhealth. injection Hhealth as Htotal Hactive.
  split; congruence.
Defined.

Lemma listed_short_codes_are_distinct_witness :
  reachable sampleProtocol (stateAfter fiveLinks) /\
  listUrls (stateAfter fiveLinks) 5
    = (stateAfter fiveLinks, UrlList (listingOf (stateAfter fiveLinks) 5)) /\
  NoDup ((fun entry => shortCode (stats_url entry)) <$> listingOf (stateAfter fiveLinks) 5).
Proof.
  pose proof (stateAfter_reachable _ _ _ fiveLinks_run) as Hreach.
  assert (Hlist : listUrls (stateAfter fiveLinks) 5
                  = (stateAfter fiveLinks, UrlList (listingOf (stateAfter fiveLinks) 5)))
    by reflexivity.
  split; [exact Hreach |]. split; [exact Hlist |].
  by destruct (listed_short_codes_are_distinct sampleProtocol _ _ _ Hreach Hlist) as [_ ?].
Defined.

(** The row of ["docs"] after its two visits: two locations, no label, two
    clicks in total. *)
Lemma click_chips_account_for_all_clicks_witness :
  reachable sampleProtocol (stateAfter linkAndVisits) /\
  listUrls (stateAfter linkAndVisits) 3000
    = (stateAfter linkAndVisits, UrlList (listingOf (stateAfter linkAndVisits) 3000)) /\
  exists entry,
    listingOf (stateAfter linkAndVisits) 3000 = [entry] /\
    stats_totalClicks entry = 2%nat /\
    (length (lastThree (stats_clickHistory entry)) +
     default O (moreClicks (stats_clickHistory entry)))%nat = stats_totalClicks entry.
Proof.
  pose proof (stateAfter_reachable _ _ _ linkAndVisits_run) as Hreach.
  assert (Hlist : listUrls (stateAfter linkAndVisits) 3000
                  = (stateAfter linkAndVisits,
                     UrlList (listingOf (stateAfter linkAndVisits) 3000)))
    by reflexivity.
  split; [exact Hreach |]. split; [exact Hlist |].
  assert (E : listingOf (stateAfter linkAndVisits) 3000
              = [mkUrlStats
                   (storedRecord 0 (sampleRequest (Some "docs") (Some 5)) "id-1" "docs")
                   2 false [(1000, Some "London, UK"); (2000, Some "Sydney, AU")]])
    by (vm_compute; reflexivity).
  eexists. split; [exact E |]. split; [reflexivity |].
  apply (click_chips_account_for_all_clicks sampleProtocol _ 3000 _ _ Hreach Hlist).
  rewrite E. apply list_elem_of_here.
Defined.


Lemma failure_statuses_witness :
  reachable sampleProtocol (stateAfter linkAndVisits) /\
  handle sampleProtocol (stateAfter linkAndVisits) 300001 (GetRedirect "docs" alice None 0)
    = Some (stateAfter linkAndVisits, Failure 410 "Short URL has expired" (Some 300000)) /\
  (410 = 400 \/ 410 = 429 \/ 410 = 404 \/ 410 = 410)%nat.
Proof.
  pose proof (stateAfter_reachable _ _ _ linkAndVisits_run) as Hreach.
  assert (H : handle sampleProtocol (stateAfter linkAndVisits) 300001
                (GetRedirect "docs" alice None 0)
              = Some (stateAfter linkAndVisits,
                      Failure 410 "Short URL has expired" (Some 300000)))
    by (vm_compute; reflexivity).
  split; [exact Hreach |]. split; [exact H |].
  destruct (failure_statuses sampleProtocol _ _ _ _ _ _ _ Hreach H)
    as [(Hs & _)|[(Hs & _)|[(Hs & _)|(Hs & _)]]]; auto.
Defined.

(** ** The create handler of the runtime on the sample inputs *)

(** With room on the stack, a hundred colliding draws are followed by one
    more, whose code is returned; with room for the hundred draws only,
    the allocation ends in the [RangeError] of the runtime, which the
    handler answers with status 400. *)
Lemma retries_pass_one_hundred :
  Runtime.generateShortCode 100 runtimeBusy collidingDraws None = Return "bbbbbb" /\
  Runtime.generateShortCode 99 runtimeBusy collidingDraws None
    = Throw "Maximum call stack size exceeded" /\
  Runtime.shorten sampleProtocol (Runtime.mkState runtimeBusy ∅) atZero 0 0
    (sampleRequest None None) "id-1" collidingDraws 99
    = (Runtime.mkState runtimeBusy ∅, Runtime.Failure 400 "Maximum call stack size exceeded").
Proof. repeat split; vm_compute; reflexivity. Qed.

Lemma retries_end_with_the_stack_witness :
  (@None string = None \/ @None string = Some "") /\
  (forall j, (j < 100)%nat -> is_Some (runtimeBusy !! attempt collidingDraws j)) /\
  Runtime.generateShortCode 100 runtimeBusy collidingDraws None
    = Return (attempt collidingDraws 100) /\
  Runtime.generateShortCode 99 runtimeBusy collidingDraws None
    = Throw Runtime.StackOverflow.
Proof.
  assert (H : forall j, (j < 100)%nat -> is_Some (runtimeBusy !! attempt collidingDraws j)).
  { intros j Hj. do 100 (destruct j as [|j]; [vm_compute; eauto |]). lia. }
  destruct (retries_end_with_the_stack sampleProtocol runtimeBusy collidingDraws None
              100 100 (or_introl eq_refl) H) as (Hreturns & _).
  destruct (retries_end_with_the_stack sampleProtocol runtimeBusy collidingDraws None
              99 100 (or_introl eq_refl) H) as (_ & Hthrows & _).
  split; [by left |]. split; [exact H |].
  split; [apply Hreturns; [lia | vm_compute; reflexivity] | apply Hthrows; lia].
Defined.

(** One millisecond between the two readings of the clock, and the expiry
    date is not the creation date plus the five minutes; and a validity of
    200000000000 minutes gives an Invalid Date. *)
Lemma expiry_is_not_creation_plus_validity :
  (Runtime.createdAt <$>
     Runtime.urlDatabase
       (Runtime.shorten sampleProtocol Runtime.init atZero 0 1
          (sampleRequest (Some "docs") (Some 5)) "id-1" zeros 0).1 !! "docs")
    = Some (Some 1) /\
  (Runtime.expiryDate <$>
     Runtime.urlDatabase
       (Runtime.shorten sampleProtocol Runtime.init atZero 0 1
          (sampleRequest (Some "docs") (Some 5)) "id-1" zeros 0).1 !! "docs")
    = Some (Some 300000) /\
  300000 <> 1 + 5 * (60 * 1000) /\
  (Runtime.expiryDate <$>
     Runtime.urlDatabase
       (Runtime.shorten sampleProtocol Runtime.init atZero 0 0
          (sampleRequest (Some "docs") (Some 200000000000)) "id-1" zeros 0).1 !! "docs")
    = Some None.
Proof. repeat split; try (vm_compute; reflexivity). lia. Qed.

(** The scenario of the specification, the clock read at one instant:
    [validityPeriod] 5 and no custom code give a generated code of six
    characters and an expiry date five minutes after the creation. *)
Lemma stored_validity_and_dates_witness :
  Runtime.shorten sampleProtocol Runtime.init atZero 0 0
    (sampleRequest None (Some 5)) "id-1" zeros 0
    = ((Runtime.shorten sampleProtocol Runtime.init atZero 0 0
          (sampleRequest None (Some 5)) "id-1" zeros 0).1,
       Runtime.Created
         (Runtime.mkShortened "https://example.com" "aaaaaa" (Some 300000) 5)) /\
  exists record,
    Runtime.urlDatabase
      (Runtime.shorten sampleProtocol Runtime.init atZero 0 0
         (sampleRequest None (Some 5)) "id-1" zeros 0).1 !! "aaaaaa" = Some record /\
    Runtime.validityPeriod record = 5 /\
    Runtime.createdAt record = Some 0 /\
    Runtime.expiryDate record = Some (0 + 5 * (60 * 1000)).
Proof.
  assert (H : Runtime.shorten sampleProtocol Runtime.init atZero 0 0
                (sampleRequest None (Some 5)) "id-1" zeros 0
              = ((Runtime.shorten sampleProtocol Runtime.init atZero 0 0
                    (sampleRequest None (Some 5)) "id-1" zeros 0).1,
                 Runtime.Created
                   (Runtime.mkShortened "https://example.com" "aaaaaa" (Some 300000) 5)))
    by (vm_compute; reflexivity).
  split; [exact H |].
  destruct (stored_validity_and_dates sampleProtocol _ _ _ _ _ _ _ _ _ _ H)
    as (record & Hdb & Hv & _ & _ & _ & Hdates & _).
  exists record. split; [exact Hdb |].
  assert (Hfive : Runtime.validityPeriod record = 5) by (apply Hv; [reflexivity | lia]).
  split; [exact Hfive |]. rewrite Hfive in Hdates.
  destruct Hdates as (Hc & _ & He);
    [unfold validTime, Runtime.maxTime; lia | unfold validTime, Runtime.maxTime; lia |].
  split; [exact Hc | by apply He].
Defined.

